(** * TasteTrove: cart reconciliation and the order/payment state machine

  A shallow embedding of the parts of the TasteTrove application that its
  specification singles out as the core logic:

  - the client-side cart editing function [updateLocalCart]
    (client/src/hooks/useCart/useCartFunctions.ts);
  - the Stripe webhook handler [handleStripeWebhook] and the order
    creation of [createPaymentIntent]
    (server/src/controllers/paymentController.ts);
  - the cart reconciler [getActionArrays] that [updateCartItem] of the
    user controller calls, with the row writes of its three batches.

  JavaScript numbers that hold quantities are modelled as [Z], strings as
  [string], JavaScript [Map]s and the unique-keyed tables of the Prisma
  schema as [gmap]s, and a thrown exception as the left injection of a
  sum. *)

From Stdlib Require Import ZArith.
From stdpp Require Import gmap strings list fin_maps.

Open Scope Z_scope.

(** ** Client: editing the locally stored cart *)

Module Client.

(** [IndividualCartItem] of useCartTypes: the shape the cart endpoints
    accept and return. *)
Record IndividualCartItem := mkItem {
  productId : string;
  productQuantity : Z
}.

(** [Array.prototype.findIndex]: the index of the first element that
    satisfies the callback, [-1] when there is none. *)
Fixpoint findIndex {A} (f : A → bool) (l : list A) : Z :=
  match l with
  | [] => -1
  | x :: l' =>
      if f x then 0
      else let i := findIndex f l' in
           if i =? -1 then -1 else i + 1
  end.

(** [Array.prototype.with]: a copy of the array with one index replaced.
    A negative index counts back from the end; an index outside
    [-length, length) throws a RangeError, which is [None] here. *)
Definition array_with {A} (l : list A) (index : Z) (value : A)
  : option (list A) :=
  let len := Z.of_nat (length l) in
  let k := if index <? 0 then len + index else index in
  if (0 <=? k) && (k <? len)
  then Some (<[Z.to_nat k := value]> l)
  else None.

(** [updateLocalCart] (useCartFunctions.ts, lines 44-70). [None] stands
    for a thrown exception. *)
Definition updateLocalCart (cart : list IndividualCartItem)
    (itemToEditId : string) (newQuantity : Z)
  : option (list IndividualCartItem) :=
  if (length cart =? 0)%nat && (newQuantity =? 0) then Some cart
  else if newQuantity =? 0 then
    Some (List.filter
            (λ cartItem, negb (String.eqb (productId cartItem) itemToEditId))
            cart)
  else
    let existingItemIndex :=
      findIndex (λ cartItem, String.eqb (productId cartItem) itemToEditId)
                cart in
    if negb (existingItemIndex =? -1) then
      array_with cart existingItemIndex
                 {| productId := itemToEditId;
                    productQuantity := newQuantity |}
    else
      Some (cart ++ [{| productId := itemToEditId;
                        productQuantity := newQuantity |}]).

(** The entries of a cart that belong to products other than [id], in
    their order. *)
Definition others (id : string) (cart : list IndividualCartItem)
  : list IndividualCartItem :=
  List.filter (λ e, negb (String.eqb (productId e) id)) cart.

(** The arithmetic of JavaScript numbers, which are floating-point values.
    Its operations are taken as they come: [of_int] reads an integer as a
    number, [round_cents x] is [Math.round(x * 100) / 100]. *)
Record PriceArith := mkPriceArith {
  number : Type;
  of_int : Z → number;
  add : number → number → number;
  mul : number → number → number;
  round_cents : number → number
}.

(** [Number.MAX_SAFE_INTEGER], 2^53 - 1. *)
Definition MAX_SAFE_INTEGER : Z := 9007199254740991.

Definition safe_integer (z : Z) : Prop :=
  - MAX_SAFE_INTEGER ≤ z ≤ MAX_SAFE_INTEGER.

(** What floating-point addition guarantees on integers: the sum of two
    safe integers is exact when it is a safe integer. *)
Definition exact_on_safe_integers (A : PriceArith) : Prop :=
  ∀ a b, safe_integer a → safe_integer b → safe_integer (a + b) →
         add A (of_int A a) (of_int A b) = of_int A (a + b).

(** [IndividualProduct] of useProducts, of which [getTotals] reads the
    price. *)
Record IndividualProduct (A : PriceArith) := mkProduct {
  price : number A
}.
Arguments price {A} _.

(** The result of [getTotals]: [{price, quantity}], two numbers. *)
Record Totals (A : PriceArith) := mkTotals {
  totals_price : number A;
  totals_quantity : number A
}.
Arguments totals_price {A} _.
Arguments totals_quantity {A} _.

(** [getTotals] (useCartFunctions.ts, lines 7-22): one pass over the cart
    that adds up the quantities and the costs, both with the addition of
    numbers; a product missing from the map costs 0. *)
Definition getTotals (A : PriceArith) (cart : list IndividualCartItem)
    (productsMap : gmap string (IndividualProduct A)) : Totals A :=
  let sums :=
    foldl
      (λ acc cartItem,
         let totalQuantity :=
           add A acc.2 (of_int A (productQuantity cartItem)) in
         let productMatch := productsMap !! productId cartItem in
         let cost :=
           mul A (default (of_int A 0) (price <$> productMatch))
                 (of_int A (productQuantity cartItem)) in
         (add A acc.1 cost, totalQuantity))
      (of_int A 0, of_int A 0) cart in
  {| totals_price := round_cents A sums.1; totals_quantity := sums.2 |}.

(** The sum of the quantities of a cart, as an integer. *)
Definition quantity_sum (cart : list IndividualCartItem) : Z :=
  foldr (λ e total, productQuantity e + total) 0 cart.

End Client.

(** ** Server: the persisted data (prisma/schema.prisma) *)

Module Schema.

(** [enum OrderStatus]. *)
Inductive OrderStatus :=
| paymentInitiated
| paymentSucceeded
| shipped
| delivered.

(** Position of a status in the chain
    [paymentInitiated → paymentSucceeded → shipped → delivered]. *)
Definition rank (s : OrderStatus) : Z :=
  match s with
  | paymentInitiated => 0
  | paymentSucceeded => 1
  | shipped => 2
  | delivered => 3
  end.

(** What a request can do to a stored status: keep it, or set it to
    [paymentSucceeded]. *)
Definition kept_or_succeeded (before after : OrderStatus) : Prop :=
  after = before ∨ after = paymentSucceeded.

(** [model OrderItem]: the purchased product and its quantity. *)
Record OrderItem := mkOrderItem {
  oi_productId : string;
  oi_productQuantity : Z
}.

(** [model Order]. The table is keyed by [stripePaymentIntentId]
    ([@unique]), so that field is the key of [orders] below. The row id,
    the price, the shipping address and the two timestamps are never read
    by the modelled handlers and are left out. *)
Record Order := mkOrder {
  userId : option string;
  items : list OrderItem;
  orderStatus : OrderStatus
}.

(** [model Cart] with its [CartItem] rows: [@@unique([cartId, productId])]
    makes the items of one cart a map from product id to quantity. *)
Record Cart := mkCart {
  cart_id : string;
  cart_items : gmap string Z
}.

(** [model User], reduced to the optional one-to-one [cart] relation. *)
Record User := mkUser {
  cart : option Cart
}.

(** The database: orders by payment-intent id, users by id, and the ids of
    the Product table, which the modelled handlers only read. *)
Record Db := mkDb {
  orders : gmap string Order;
  users : gmap string User;
  product_ids : gset string
}.

(** What a rejected call can raise. *)
Inductive Error :=
| RecordNotFound (model : string)      (* Prisma P2025 *)
| UniqueConstraint (field : string)    (* Prisma P2002 *)
| TypeError (message : string)         (* property access on null *)
| StripeError (message : string)
| ForeignKeyConstraint (field : string) (* Prisma P2003 *)
| ValueOutOfRange (field : string).    (* Prisma P2020: Int is 32 bits *)

(** [data] of [prisma.order.create] as [createPaymentIntent] builds it. *)
Record CreateOrderData := mkCreateOrderData {
  d_stripePaymentIntentId : string;
  d_items : list OrderItem;
  d_orderStatus : OrderStatus;
  d_user : option string               (* user: {connect: {id}} *)
}.

(** The three calls the payment controller makes on the Prisma client.
    Each returns the thrown error or its result with the database after
    the write. [order_update] is
    [order.update({where: {stripePaymentIntentId}, data: {orderStatus:
    {set}}, include: {items: true}})]; its result is a JavaScript value
    that the handler tests for null. [user_update_cart_deleteMany] is
    [user.update({where: {id}, data: {cart: {update: {data: {items:
    {deleteMany: {productId: {in}}}}}}}})]. *)
Record PrismaClient := mkPrismaClient {
  order_update :
    Db → string → OrderStatus → Error + (option Order * Db);
  user_update_cart_deleteMany :
    Db → string → list string → Error + Db;
  order_create :
    Db → CreateOrderData → Error + Db
}.

(** [deleteMany({productId: {in: ids}})] on the items of one cart: every
    matching row goes, whatever its quantity; no match is not an error. *)
Definition deleteMany_in (ids : list string) (cartItems : gmap string Z)
  : gmap string Z :=
  filter (λ kv, kv.1 ∉ ids) cartItems.

(** Prisma's [update] on a unique key: rejects with P2025 when no row
    matches, otherwise writes and returns the row. *)
Definition prisma_order_update (db : Db) (paymentIntentId : string)
    (status : OrderStatus) : Error + (option Order * Db) :=
  match orders db !! paymentIntentId with
  | None => inl (RecordNotFound "Order")
  | Some o =>
      let o' := {| userId := userId o; items := items o;
                   orderStatus := status |} in
      inr (Some o',
           {| orders := <[paymentIntentId := o']> (orders db);
              users := users db;
              product_ids := product_ids db |})
  end.

(** The nested write on the user's cart: rejects when the user or the
    cart relation is missing, and writes nothing then. *)
Definition prisma_user_update_cart_deleteMany (db : Db) (id : string)
    (ids : list string) : Error + Db :=
  match users db !! id with
  | None => inl (RecordNotFound "User")
  | Some u =>
      match cart u with
      | None => inl (RecordNotFound "Cart")
      | Some c =>
          let c' := {| cart_id := cart_id c;
                       cart_items := deleteMany_in ids (cart_items c) |} in
          inr {| orders := orders db;
                 users := <[id := {| cart := Some c' |}]> (users db);
                 product_ids := product_ids db |}
      end
  end.

(** A value an [Int] column takes. *)
Definition is_int32 (n : Z) : bool :=
  (-2147483648 <=? n) && (n <=? 2147483647).

(** [order.create] with its nested [items: {createMany}] and
    [user: {connect}]: rejects on a payment-intent id already stored, on a
    [connect] to a user that does not exist, and on an item row the
    OrderItem table refuses: a quantity that does not fit the Int column, a
    product that does not exist, the same product twice in one order
    ([@@unique([orderId, productId])]). Nothing is written then. *)
Definition prisma_order_create (db : Db) (data : CreateOrderData)
  : Error + Db :=
  match orders db !! d_stripePaymentIntentId data with
  | Some _ => inl (UniqueConstraint "stripePaymentIntentId")
  | None =>
      let missing :=
        match d_user data with
        | Some u => bool_decide (users db !! u = None)
        | None => false
        end in
      if missing then inl (RecordNotFound "User")
      else if negb (forallb (λ item, is_int32 (oi_productQuantity item))
                      (d_items data))
      then inl (ValueOutOfRange "productQuantity")
      else if negb (forallb
                      (λ item, bool_decide (oi_productId item ∈ product_ids db))
                      (d_items data))
      then inl (ForeignKeyConstraint "productId")
      else if negb (bool_decide (NoDup (map oi_productId (d_items data))))
      then inl (UniqueConstraint "orderId_productId")
      else
        inr {| orders :=
                 <[d_stripePaymentIntentId data :=
                     {| userId := d_user data; items := d_items data;
                        orderStatus := d_orderStatus data |}]> (orders db);
               users := users db;
               product_ids := product_ids db |}
  end.


(** The client the application runs against. *)
Definition prisma : PrismaClient :=
  {| order_update := prisma_order_update;
     user_update_cart_deleteMany := prisma_user_update_cart_deleteMany;
     order_create := prisma_order_create |}.

End Schema.

(** ** Server: the payment controller (paymentController.ts) *)

Module PaymentController.
Import Schema.

(** The Stripe event after verification: [event.type] and the id of
    [event.data.object]. *)
Record StripeEvent := mkEvent {
  type : string;
  data_object_id : string
}.

(** [Stripe.PaymentIntent] as [createPaymentIntent] reads it. *)
Record PaymentIntent := mkPaymentIntent {
  id : string;
  client_secret : option string
}.

(** [CreatePaymentIntentPayload]: the request body of
    [createPaymentIntent]. [totalPrice] only feeds the amount sent to
    Stripe, a floating-point computation that stays inside
    [paymentIntents_create] here. *)
Record CreatePaymentIntentPayload := mkPayload {
  payload_items : list OrderItem;
  payload_userId : option string
}.

(** The Stripe service the controller imports. [constructEvent body sig
    secret] verifies the signature and throws (left, with the message) or
    returns the event; [paymentIntents_create] is the call to Stripe's
    API. *)
Record StripeService := mkStripe {
  constructEvent : string → string → string → string + StripeEvent;
  paymentIntents_create :
    CreatePaymentIntentPayload → Error + PaymentIntent
}.

(** The part of the Express request the webhook handler reads. *)
Record Request := mkRequest {
  body : string;
  stripe_signature : option string     (* req.headers['stripe-signature'] *)
}.

(** Bodies the two handlers send. *)
Inductive Body :=
| Text (s : string)                        (* res.send(...) *)
| ErrorJson (error : string)               (* {error: ...} *)
| ReceivedJson (received : bool)           (* {received: ...} *)
| ClientSecretJson (clientSecret : option string).

(** How a handler ends: a response with its status, or [next(err)]. *)
Inductive Outcome :=
| Respond (status : Z) (b : Body)
| Next (err : Error).

(** The acknowledgment Stripe expects: status 2xx. *)
Definition acknowledged (out : Outcome) : bool :=
  match out with
  | Respond status _ => (200 <=? status) && (status <? 300)
  | Next _ => false
  end.

(** The order lookup by payment-intent id failed: the call was rejected, or
    it delivered no order. *)
Definition lookup_failed (r : Error + (option Order * Db)) : bool :=
  match r with
  | inl _ => true
  | inr (None, _) => true
  | inr (Some _, _) => false
  end.

(** JavaScript truthiness of a [string | null]: null and the empty string
    are falsy. *)
Definition truthy (s : option string) : bool :=
  match s with
  | Some v => negb (String.eqb v "")
  | None => false
  end.

(** The body of the ['payment_intent.succeeded'] branch of
    [handleStripeWebhook] (lines 132-169), which the specification calls
    [onPaymentSucceeded]. The result is the exception thrown ([inl]), an
    early [return res...] ([inr (Some _)]) or falling out of the branch
    ([inr None]), with the database as the completed writes left it. *)
Definition onPaymentSucceeded (client : PrismaClient)
    (paymentIntentId : string) (db : Db)
  : (Error + option Outcome) * Db :=
  match order_update client db paymentIntentId paymentSucceeded with
  | inl err => (inl err, db)
  | inr (order, db1) =>
      (* lines 145-164: if (order.userId) {await prisma.user.update(...)} *)
      let cartStep :=
        match order with
        | None =>
            inl (TypeError "Cannot read properties of null (reading 'userId')")
        | Some o =>
            if truthy (userId o) then
              user_update_cart_deleteMany client db1
                (default "" (userId o))
                (map oi_productId (items o))
            else inr db1
        end in
      match cartStep with
      | inl err => (inl err, db1)
      | inr db2 =>
          (* lines 166-169: if (!order) {... return res.status(404)...} *)
          match order with
          | None => (inr (Some (Respond 404 (ErrorJson "Order not found"))), db2)
          | Some _ => (inr None, db2)
          end
      end
  end.

(** [handleStripeWebhook] (lines 108-179). [secret] is
    [process.env.STRIPE_WEBHOOK_SECRET]. *)
Definition handleStripeWebhook (stripe : StripeService)
    (client : PrismaClient) (secret : string) (req : Request) (db : Db)
  : Outcome * Db :=
  let sig := default "" (stripe_signature req) in
  match constructEvent stripe (body req) sig secret with
  | inl err => (Respond 400 (Text ("Webhook Error: " +:+ err)), db)
  | inr event =>
      if String.eqb (type event) "payment_intent.succeeded" then
        match onPaymentSucceeded client (data_object_id event) db with
        | (inl err, db') => (Next err, db')
        | (inr (Some response), db') => (response, db')
        | (inr None, db') => (Respond 200 (ReceivedJson true), db')
        end
      else (Respond 200 (ReceivedJson true), db)
  end.

(** [createPaymentIntent] (lines 28-87). *)
Definition createPaymentIntent (stripe : StripeService)
    (client : PrismaClient) (payload : CreatePaymentIntentPayload)
    (db : Db) : Outcome * Db :=
  match paymentIntents_create stripe payload with
  | inl err => (Next err, db)
  | inr paymentIntent =>
      let data :=
        {| d_stripePaymentIntentId := id paymentIntent;
           d_items := payload_items payload;
           d_orderStatus := paymentInitiated;
           d_user := if truthy (payload_userId payload)
                     then payload_userId payload else None |} in
      match order_create client db data with
      | inl err => (Next err, db)
      | inr db' =>
          (Respond 201 (ClientSecretJson (client_secret paymentIntent)),
           db')
      end
  end.

(** The database after a successful [createPaymentIntent]: one order
    more, initiated, under the id Stripe gave. An empty or missing user id
    makes it a guest order. *)
Definition with_new_order (payload : CreatePaymentIntentPayload)
    (intent : PaymentIntent) (db : Db) : Db :=
  {| orders :=
       <[id intent :=
           {| userId := if truthy (payload_userId payload)
                        then payload_userId payload else None;
              items := payload_items payload;
              orderStatus := paymentInitiated |}]> (orders db);
     users := users db;
     product_ids := product_ids db |}.

(** The operations of the controller that write orders. *)
Inductive Op :=
| OpCreatePaymentIntent (payload : CreatePaymentIntentPayload)
| OpStripeWebhook (req : Request).

(** One request handled against the database. *)
Definition step (stripe : StripeService) (client : PrismaClient)
    (secret : string) (op : Op) (db : Db) : Outcome * Db :=
  match op with
  | OpCreatePaymentIntent payload =>
      createPaymentIntent stripe client payload db
  | OpStripeWebhook req =>
      handleStripeWebhook stripe client secret req db
  end.

(** The database after a sequence of requests. *)
Definition run (stripe : StripeService) (client : PrismaClient)
    (secret : string) (ops : list Op) (db : Db) : Db :=
  foldl (λ d op, (step stripe client secret op d).2) db ops.

End PaymentController.

(** ** Server: the cart reconciler (utils/cartUtil.ts) *)

Module CartUtil.

(** [MutableCartItemPayload]: one entry of the desired-item list that
    [updateCartItem] reads from the request body. *)
Record MutableCartItemPayload := mkPayload {
  productId : string;
  productQuantity : Z
}.

(** The three batches [updateCartItem] destructures from the result of
    [getActionArrays]. *)
Record ActionArrays := mkActions {
  creates : list MutableCartItemPayload;
  updates : list MutableCartItemPayload;
  deletes : list string
}.

(** Modelled from the spec: [getActionArrays] of utils/cartUtil.ts, which
    [updateCartItem] imports and whose file is not among the sources. The
    specification (section 4.1) walks the desired items in order and looks
    each product up in the current cart: not found is a create; found
    with a different quantity is an update; found with the same quantity
    is nothing; and a target quantity of 0 is routed to the deletes. Its
    testable properties ask that every entry with quantity 0 ends up in
    the deletes, for every current cart, so the test for 0 comes first
    here; deleting a product the cart does not hold changes nothing (see
    [apply_write]), which is how a quantity of 0 for a product that is
    not in the cart is the no-op section 4.1 describes. [userCartMap] is
    the [Map] from product id to the stored row, of which only the
    quantity is read. *)
Definition getActionArrays (items : list MutableCartItemPayload)
    (userCartMap : gmap string Z) : ActionArrays :=
  foldl
    (λ acc item,
       if productQuantity item =? 0 then
         {| creates := creates acc; updates := updates acc;
            deletes := deletes acc ++ [productId item] |}
       else
         match userCartMap !! productId item with
         | None =>
             {| creates := creates acc ++ [item]; updates := updates acc;
                deletes := deletes acc |}
         | Some current =>
             if current =? productQuantity item then acc
             else
               {| creates := creates acc; updates := updates acc ++ [item];
                  deletes := deletes acc |}
         end)
    {| creates := []; updates := []; deletes := [] |}
    items.

(** One row-level write of a batch. *)
Inductive Write :=
| WUpdate (item : MutableCartItemPayload)
| WDelete (id : string)
| WCreate (item : MutableCartItemPayload).

(** Modelled from the spec: the effect of [updateCartItems],
    [deleteCartItems] and [createCartItems] of utils/cartUtil.ts (not
    among the sources) on the items of the cart, one row at a time: a
    create inserts the item with the given quantity, an update sets the
    quantity of the stored item, a delete removes the item in the
    [deleteMany] style, without failing when it is absent. *)
Definition apply_write (cartItems : gmap string Z) (w : Write)
  : gmap string Z :=
  match w with
  | WUpdate item =>
      alter (λ _, productQuantity item) (productId item) cartItems
  | WDelete id => delete id cartItems
  | WCreate item =>
      <[productId item := productQuantity item]> cartItems
  end.

(** The writes of the three batches, in the order [updateCartItem] lists
    them in its [Promise.all]: updates, deletes, creates. *)
Definition writes_of (a : ActionArrays) : list Write :=
  map WUpdate (updates a) ++ map WDelete (deletes a)
    ++ map WCreate (creates a).

(** The items of the cart after a sequence of writes. *)
Definition apply_writes (ws : list Write) (cartItems : gmap string Z)
  : gmap string Z :=
  foldl apply_write cartItems ws.

(** The product a write is about. *)
Definition write_key (w : Write) : string :=
  match w with
  | WUpdate item => productId item
  | WDelete id => id
  | WCreate item => productId item
  end.

(** The three tests of the classification, as predicates on one entry. *)
Definition is_delete (item : MutableCartItemPayload) : bool :=
  productQuantity item =? 0.

Definition is_create (userCartMap : gmap string Z)
    (item : MutableCartItemPayload) : bool :=
  negb (productQuantity item =? 0)
  && bool_decide (userCartMap !! productId item = None).

Definition is_update (userCartMap : gmap string Z)
    (item : MutableCartItemPayload) : bool :=
  negb (productQuantity item =? 0)
  && match userCartMap !! productId item with
     | Some current => negb (current =? productQuantity item)
     | None => false
     end.

End CartUtil.

(** ** Server: the cart handlers of the user controller *)

Module UserController.
Import Schema.

(** What a rejected call on the cart tables raises. *)
Inductive CartError :=
| CartNotFound         (* P2025: no cart matches the where clause *)
| ProductNotFound      (* P2003: CartItem.productId references Product *)
| QuantityOutOfRange   (* productQuantity is an Int column, 32 bits *)
| ItemExists           (* P2002: @@unique([cartId, productId]) *)
| ItemNotFound.        (* the item to delete is not in the cart *)

(** Bodies the cart handlers send: the selected cart ([null], or its items
    as productId and productQuantity), a message, an error. *)
Inductive Body :=
| CartJson (cart : option (gmap string Z))
| MessageJson (message : string)
| ErrorJson (error : string).

(** How a cart handler ends. *)
Inductive Outcome :=
| Respond (status : Z) (b : Body)
| Next (err : CartError).

(** [cart.findUnique({where: {userId}})]: carts are stored with their
    user, [userId] being unique. *)
Definition prisma_cart_findUnique (db : Db) (userId : string)
  : option Cart :=
  users db !! userId ≫= cart.

(** The database with the items of the cart of [userId] replaced. *)
Definition with_cart_items (db : Db) (userId : string) (c : Cart)
    (cartItems : gmap string Z) : Db :=
  {| orders := orders db;
     users := <[userId := {| cart := Some {| cart_id := cart_id c;
                                            cart_items := cartItems |} |}]>
                (users db);
     product_ids := product_ids db |}.

(** [cart.update({where: {userId}, data: {items: {create: {productId,
    productQuantity}}}})]: rejected when the user has no cart, when the
    product does not exist, when the quantity does not fit the column, and
    when the cart already holds the product. *)
Definition prisma_cart_update_items_create
    (db : Db) (userId productId : string) (productQuantity : Z)
  : CartError + (Cart * Db) :=
  match prisma_cart_findUnique db userId with
  | None => inl CartNotFound
  | Some c =>
      if negb (bool_decide (productId ∈ product_ids db))
      then inl ProductNotFound
      else if negb (is_int32 productQuantity) then inl QuantityOutOfRange
      else
        match cart_items c !! productId with
        | Some _ => inl ItemExists
        | None =>
            let cartItems := <[productId := productQuantity]> (cart_items c) in
            inr ({| cart_id := cart_id c; cart_items := cartItems |},
                 with_cart_items db userId c cartItems)
        end
  end.

(** [cart.update({where: {id}, data: {items: {delete: {cartId_productId}}}})]
    on the cart found for [userId] (its id is the primary key of the row
    just read): rejected when the cart does not hold the product. *)
Definition prisma_cart_update_items_delete (db : Db)
    (userId productId : string) : CartError + (Cart * Db) :=
  match prisma_cart_findUnique db userId with
  | None => inl CartNotFound
  | Some c =>
      match cart_items c !! productId with
      | None => inl ItemNotFound
      | Some _ =>
          let cartItems := delete productId (cart_items c) in
          inr ({| cart_id := cart_id c; cart_items := cartItems |},
               with_cart_items db userId c cartItems)
      end
  end.

(** [cartItem.deleteMany({where: {cart: {userId}}})]: removes what
    matches, which may be nothing. *)
Definition prisma_cartItem_deleteMany (db : Db) (userId : string) : Db :=
  match prisma_cart_findUnique db userId with
  | None => db
  | Some c => with_cart_items db userId c ∅
  end.

(** [getCart] (user controller, lines 349-362). *)
Definition getCart (db : Db) (userId : string) : Outcome :=
  let cart := prisma_cart_findUnique db userId in
  Respond 200 (CartJson (cart_items <$> cart)).

(** [addItemToCart] (lines 381-406). *)
Definition addItemToCart (db : Db)
    (userId : string) (body : CartUtil.MutableCartItemPayload)
  : Outcome * Db :=
  match prisma_cart_update_items_create db userId
          (CartUtil.productId body) (CartUtil.productQuantity body) with
  | inl err => (Next err, db)
  | inr (updatedCart, db') =>
      (Respond 200 (CartJson (Some (cart_items updatedCart))), db')
  end.

(** [removeItemFromCart] (lines 472-504). *)
Definition removeItemFromCart (db : Db) (userId productId : string)
  : Outcome * Db :=
  match prisma_cart_findUnique db userId with
  | None => (Respond 404 (ErrorJson "No cart found"), db)
  | Some cart =>
      match prisma_cart_update_items_delete db userId productId with
      | inl err => (Next err, db)
      | inr (updatedCart, db') =>
          (Respond 200 (CartJson (Some (cart_items updatedCart))), db')
      end
  end.

(** [clearCart] (lines 522-542). *)
Definition clearCart (db : Db) (userId : string) : Outcome * Db :=
  (Respond 200 (MessageJson "Cart cleared successfully"),
   prisma_cartItem_deleteMany db userId).

(** The quantity stored for a product in the cart of a user, if the user
    has a cart that holds the product. *)
Definition quantity_in_cart (db : Db) (userId productId : string)
  : option Z :=
  prisma_cart_findUnique db userId ≫= (λ c, cart_items c !! productId).

End UserController.

(** ** Server: tokens and the access middleware (tokenUtil.ts,
    authMiddleware.ts) *)

Module Auth.

(** The four fields of a [User] that the token functions read. *)
Record User := mkUser {
  id : string;
  email : string;
  firstName : string;
  lastName : string
}.

(** [TokenUserPayload]: the object that is signed into a token. *)
Record TokenUserPayload := mkTokenUserPayload {
  payload_id : string;
  payload_email : string;
  payload_firstName : string;
  payload_lastName : string
}.

(** What [jwt.verify] hands to its callback on success: the signed payload
    with the [iat] and [exp] claims the library added. *)
Record JwtPayload := mkJwtPayload {
  claims : TokenUserPayload;
  iat : Z;
  exp : Z
}.

(** The jsonwebtoken library: [sign payload secret expiresIn] returns the
    token, [verify token secret] the decoded payload, or [None] when the
    callback receives an error. The clock is part of the library. *)
Record Jwt := mkJwt {
  sign : TokenUserPayload → string → string → string;
  verify : string → string → option JwtPayload
}.

(** The two secrets of [process.env]. *)
Record Env := mkEnv {
  ACCESS_TOKEN_SECRET : string;
  REFRESH_TOKEN_SECRET : string
}.

(** [generateAccessToken] (tokenUtil.ts, lines 17-25). *)
Definition generateAccessToken (jwt : Jwt) (env : Env) (user : User)
  : string :=
  sign jwt
    {| payload_id := id user; payload_email := email user;
       payload_firstName := firstName user;
       payload_lastName := lastName user |}
    (ACCESS_TOKEN_SECRET env) "20m".

(** [generateRefreshToken] (tokenUtil.ts, lines 38-46). *)
Definition generateRefreshToken (jwt : Jwt) (env : Env) (user : User)
  : string :=
  sign jwt
    {| payload_id := id user; payload_email := email user;
       payload_firstName := firstName user;
       payload_lastName := lastName user |}
    (REFRESH_TOKEN_SECRET env) "14d".

(** [verifyToken] (tokenUtil.ts, lines 63-79): the promise resolves with
    null on a verification error and with the payload without [iat] and
    [exp] otherwise; it is never rejected. *)
Definition verifyToken (jwt : Jwt) (env : Env) (token : string)
  : option TokenUserPayload :=
  match verify jwt token (REFRESH_TOKEN_SECRET env) with
  | None => None
  | Some tokenUserPayloadAndJwt => Some (claims tokenUserPayloadAndJwt)
  end.

(** The part of the request the middleware reads: the parsed cookies. *)
Record Request := mkRequest {
  cookies : gmap string string
}.

(** How the middleware ends: the 401 answer with its [error] text, or
    [next()]. *)
Inductive Outcome :=
| Json (status : Z) (error : string)
| Next.

(** [authenticateAccessToken] (authMiddleware.ts, lines 24-48). A missing
    cookie and the empty string are falsy. Nothing in the body throws, as
    [verifyToken] resolves on every path, so the [catch] is not reached. *)
Definition authenticateAccessToken (jwt : Jwt) (env : Env) (req : Request)
  : Outcome :=
  let accessToken := cookies req !! "accessToken" in
  let noAccess := Json 401 "User does not have access" in
  match accessToken with
  | None => noAccess
  | Some token =>
      if String.eqb token "" then noAccess
      else
        match verifyToken jwt env token with
        | None => noAccess
        | Some isVerified => Next
        end
  end.

End Auth.

(** ** Concrete data used to run the definitions *)

Module Samples.
Import Schema PaymentController.

(** A Stripe service that accepts the signature ["good"] and then reads
    the body as the payment-intent id of a succeeded payment. *)
Definition stripe_stub : StripeService :=
  {| constructEvent := λ body sig _,
       if String.eqb sig "good"
       then inr {| type := "payment_intent.succeeded";
                   data_object_id := body |}
       else inl "No signatures found matching the expected signature";
     paymentIntents_create := λ _,
       inr {| id := "pi_2"; client_secret := Some "secret_2" |} |}.

Definition order_P1_P2 (status : OrderStatus) : Order :=
  {| userId := Some "U";
     items := [ {| oi_productId := "P1"; oi_productQuantity := 1 |};
                {| oi_productId := "P2"; oi_productQuantity := 1 |} ];
     orderStatus := status |}.

Definition cart_U : Cart :=
  {| cart_id := "cart_U";
     cart_items := {[ "P1" := 5; "P2" := 1; "P3" := 2 ]} |}.

(** One order of user U, whose cart holds P1, P2 and P3. *)
Definition db_of (status : OrderStatus) : Db :=
  {| orders := {[ "pi_1" := order_P1_P2 status ]};
     users := {[ "U" := {| cart := Some cart_U |} ]};
     product_ids := {[ "P1"; "P2"; "P3"; "P4" ]} |}.

Definition webhook (paymentIntentId sig : string) : Request :=
  {| body := paymentIntentId; stripe_signature := Some sig |}.

(** A store in which the owner U of the order has no cart. *)
Definition db_without_cart : Db :=
  {| orders := {[ "pi_1" := order_P1_P2 paymentInitiated ]};
     users := {[ "U" := {| cart := None |} ]};
     product_ids := {[ "P1"; "P2"; "P3"; "P4" ]} |}.

(** A token library that tags the secret: a token verifies under the
    secret it was signed with and under no other. *)
Definition jwt_stub : Auth.Jwt :=
  {| Auth.sign := λ _ secret _, "jwt." +:+ secret;
     Auth.verify := λ token secret,
       if String.eqb token ("jwt." +:+ secret)
       then Some {| Auth.claims :=
                      {| Auth.payload_id := "U"; Auth.payload_email := "";
                         Auth.payload_firstName := "";
                         Auth.payload_lastName := "" |};
                    Auth.iat := 0; Auth.exp := 1200 |}
       else None |}.

Definition env_stub : Auth.Env :=
  {| Auth.ACCESS_TOKEN_SECRET := "access";
     Auth.REFRESH_TOKEN_SECRET := "refresh" |}.

Definition user_U : Auth.User :=
  {| Auth.id := "U"; Auth.email := ""; Auth.firstName := "";
     Auth.lastName := "" |}.

End Samples.

(** * Properties *)

(** ** The client-side cart *)

Section ClientCart.
Import Client.

Implicit Types (cart : list IndividualCartItem) (id : string) (q : Z).

Lemma findIndex_bounds {A} (f : A → bool) (l : list A) :
  -1 ≤ findIndex f l < Z.of_nat (length l).
Proof.
  induction l as [|x l IH]; simpl; [lia|].
  destruct (f x); [lia|].
  destruct (Z.eqb_spec (findIndex f l) (-1)); lia.
Qed.

(** [findIndex] either finds nothing, or splits the list at the first
    element that satisfies the callback. *)
Lemma findIndex_split {A} (f : A → bool) (l : list A) :
  (findIndex f l = -1 ∧ ∀ x, x ∈ l → f x = false)
  ∨ (∃ l1 x l2, l = l1 ++ x :: l2 ∧ f x = true
       ∧ (∀ y, y ∈ l1 → f y = false)
       ∧ findIndex f l = Z.of_nat (length l1)).
Proof.
  induction l as [|x l IH]; simpl.
  - left. split; [done|]. intros y Hy. inversion Hy.
  - destruct (f x) eqn:Hfx.
    + right. exists [], x, l. repeat split; [done|].
      intros y Hy. inversion Hy.
    + destruct IH as [[Hi Hno]|(l1 & y & l2 & -> & Hy & Hl1 & Hi)].
      * left. rewrite Hi. split; [done|].
        intros z Hz. apply elem_of_cons in Hz as [->|Hz]; auto.
      * right. exists (x :: l1), y, l2. rewrite Hi.
        repeat split; [done| |].
        -- intros z Hz. apply elem_of_cons in Hz as [->|Hz]; auto.
        -- destruct (Z.eqb_spec (Z.of_nat (length l1)) (-1)); simpl length; lia.
Qed.

Lemma array_with_middle {A} (l1 l2 : list A) (x v : A) :
  array_with (l1 ++ x :: l2) (Z.of_nat (length l1)) v
  = Some (l1 ++ v :: l2).
Proof.
  unfold array_with. rewrite length_app. simpl length.
  destruct (Z.ltb_spec (Z.of_nat (length l1)) 0); [lia|].
  destruct (Z.leb_spec 0 (Z.of_nat (length l1))); [|lia].
  destruct (Z.ltb_spec (Z.of_nat (length l1))
              (Z.of_nat (length l1 + S (length l2)))); [|lia].
  simpl. rewrite Nat2Z.id. f_equal.
  rewrite insert_app_r_alt by lia.
  by rewrite Nat.sub_diag.
Qed.

Lemma others_app id cart1 cart2 :
  others id (cart1 ++ cart2) = others id cart1 ++ others id cart2.
Proof. apply List.filter_app. Qed.

Lemma others_no_id id cart e : e ∈ others id cart → productId e ≠ id.
Proof.
  unfold others. rewrite list_elem_of_In, List.filter_In.
  intros [_ H] Heq. by rewrite Heq, String.eqb_refl in H.
Qed.

Lemma others_cons_id id e cart :
  productId e = id → others id (e :: cart) = others id cart.
Proof.
  intros <-. unfold others. cbn [List.filter].
  by rewrite String.eqb_refl.
Qed.

Lemma others_id_free id cart :
  (∀ x, x ∈ cart → productId x ≠ id) → others id cart = cart.
Proof.
  induction cart as [|e cart IH]; intros H; [done|].
  unfold others in *. cbn [List.filter].
  destruct (String.eqb_spec (productId e) id) as [He|He].
  - exfalso. apply (H e); [left|done].
  - cbn [negb]. f_equal. apply IH. intros x Hx. apply H. by right.
Qed.

Lemma others_idemp id cart : others id (others id cart) = others id cart.
Proof.
  apply others_id_free. intros x. apply others_no_id.
Qed.

Lemma first_split_unique id (l1 l2 l1' l2' : list IndividualCartItem) e e' :
  l1 ++ e :: l2 = l1' ++ e' :: l2' →
  productId e = id → (∀ x, x ∈ l1 → productId x ≠ id) →
  productId e' = id → (∀ x, x ∈ l1' → productId x ≠ id) →
  l1 = l1' ∧ l2 = l2'.
Proof.
  revert l1'.
  induction l1 as [|a l1 IH]; intros [|a' l1'] Heq He H1 He' H1';
    simpl in Heq; inversion Heq; subst.
  - done.
  - exfalso. eapply H1'; [left|]; done.
  - exfalso. eapply H1; [left|]; done.
  - destruct (IH l1') as [-> ->]; try done.
    + intros x Hx. apply H1. by right.
    + intros x Hx. apply H1'. by right.
Qed.

(** C10. [updateLocalCart cart id 0] returns a cart with no entry for [id]
    and the entries of the other products unchanged; for a new quantity
    above 0 the returned cart holds the entry [{id, newQuantity}], which
    replaces the first entry for [id] when there is one and is appended
    otherwise, and the entries of the other products are unchanged. The
    function returns in every case. *)
Theorem updateLocalCart_spec :
  (∀ cart id, ∃ r,
      updateLocalCart cart id 0 = Some r
      ∧ (∀ e, e ∈ r → productId e ≠ id)
      ∧ others id r = others id cart)
  ∧ (∀ cart id q, 0 < q → ∃ r,
      updateLocalCart cart id q = Some r
      ∧ mkItem id q ∈ r
      ∧ others id r = others id cart
      ∧ (∀ l1 e l2, cart = l1 ++ e :: l2 → productId e = id →
           (∀ x, x ∈ l1 → productId x ≠ id) →
           r = l1 ++ mkItem id q :: l2)
      ∧ ((∀ x, x ∈ cart → productId x ≠ id) → r = cart ++ [mkItem id q])).
Proof.
  split.
  - intros cart id. unfold updateLocalCart.
    destruct cart as [|e0 cart]; cbn [length Nat.eqb Z.eqb andb].
    + exists []. split; [done|]. split; [|done].
      intros e He. inversion He.
    + eexists. split; [reflexivity|]. split.
      * intros e. apply (others_no_id id (e0 :: cart)).
      * apply (others_idemp id (e0 :: cart)).
  - intros cart id q Hq. unfold updateLocalCart.
    destruct (Z.eqb_spec q 0) as [|_]; [lia|].
    rewrite andb_false_r.
    destruct (findIndex_split
                (λ cartItem, String.eqb (productId cartItem) id) cart)
      as [[Hi Hno]|(l1 & x & l2 & -> & Hx & Hl1 & Hi)]; rewrite Hi.
    + cbn [Z.eqb negb]. eexists. split; [reflexivity|].
      assert (Hfree : ∀ y, y ∈ cart → productId y ≠ id).
      { intros y Hy Heq. specialize (Hno y Hy). cbn beta in Hno.
        by rewrite Heq, String.eqb_refl in Hno. }
      repeat split.
      * apply elem_of_app. right. left.
      * rewrite others_app, (others_cons_id id (mkItem id q) []) by done.
        unfold others at 2. cbn [List.filter]. by rewrite app_nil_r.
      * intros l1 e l2 -> He _. exfalso. apply (Hfree e); [|done].
        apply elem_of_app. right. left.
    + destruct (Z.eqb_spec (Z.of_nat (length l1)) (-1)) as [|_]; [lia|].
      cbn [negb]. rewrite array_with_middle.
      eexists. split; [reflexivity|].
      apply String.eqb_eq in Hx.
      assert (Hfree : ∀ y, y ∈ l1 → productId y ≠ id).
      { intros y Hy Heq. specialize (Hl1 y Hy). cbn beta in Hl1.
        by rewrite Heq, String.eqb_refl in Hl1. }
      repeat split.
      * apply elem_of_app. right. left.
      * rewrite !others_app. f_equal.
        by rewrite !others_cons_id.
      * intros l1' e l2' Heq He Hl1'.
        destruct (first_split_unique id l1 l2 l1' l2' x e) as [-> ->]; done.
      * intros Hall. exfalso. apply (Hall x); [|done].
        apply elem_of_app. right. left.
Qed.

(** The statement of C10 at a cart that holds the edited product twice. *)
Lemma updateLocalCart_spec_witness :
  0 < 4 ∧
  ∃ r, updateLocalCart [mkItem "a" 1; mkItem "b" 2; mkItem "a" 3] "a" 4
       = Some r
       ∧ r = [mkItem "a" 4; mkItem "b" 2; mkItem "a" 3].
Proof.
  split; [lia|].
  destruct (proj2 updateLocalCart_spec
              [mkItem "a" 1; mkItem "b" 2; mkItem "a" 3] "a" 4)
    as (r & Hr & _ & _ & Hrepl & _); [lia|].
  exists r. split; [exact Hr|].
  apply (Hrepl [] (mkItem "a" 1) [mkItem "b" 2; mkItem "a" 3]);
    [reflexivity|reflexivity|].
  intros x Hx. inversion Hx.
Defined.

End ClientCart.

(** ** The webhook handler *)

Section Webhook.
Import Schema PaymentController.

Implicit Types (stripe : StripeService) (client : PrismaClient)
  (db : Db) (req : Request) (paymentIntentId secret : string).

(** The 404 of lines 166-169 is tested after [order.userId] was read, so it
    is never reached, whatever the client returns. *)
Lemma onPaymentSucceeded_no_early_return client paymentIntentId db response :
  (onPaymentSucceeded client paymentIntentId db).1 ≠ inr (Some response).
Proof.
  unfold onPaymentSucceeded.
  destruct (order_update client db paymentIntentId paymentSucceeded)
    as [err|[[o|] db1]]; cbn; [done| |done].
  destruct (truthy (userId o)); [|done].
  by destruct (user_update_cart_deleteMany client db1 _ _).
Qed.

Lemma handleStripeWebhook_never_404 stripe client secret req db b :
  (handleStripeWebhook stripe client secret req db).1 ≠ Respond 404 b.
Proof.
  unfold handleStripeWebhook.
  destruct (constructEvent stripe _ _ _) as [err|event]; [done|].
  destruct (String.eqb (type event) "payment_intent.succeeded"); [|done].
  pose proof (onPaymentSucceeded_no_early_return
                client (data_object_id event) db) as Hno.
  destruct (onPaymentSucceeded client (data_object_id event) db)
    as [[err|[response|]] db']; cbn in *; [done| |done].
  exfalso. by apply (Hno response).
Qed.

(** The branch against the Prisma client, with the calls resolved. *)
Lemma onPaymentSucceeded_prisma paymentIntentId db :
  onPaymentSucceeded prisma paymentIntentId db =
  match orders db !! paymentIntentId with
  | None => (inl (RecordNotFound "Order"), db)
  | Some o =>
      let o' := {| userId := userId o; items := items o;
                   orderStatus := paymentSucceeded |} in
      let db1 := {| orders := <[paymentIntentId := o']> (orders db);
                    users := users db;
                    product_ids := product_ids db |} in
      if truthy (userId o) then
        match prisma_user_update_cart_deleteMany db1 (default "" (userId o))
                (map oi_productId (items o)) with
        | inl err => (inl err, db1)
        | inr db2 => (inr None, db2)
        end
      else (inr None, db1)
  end.
Proof.
  unfold onPaymentSucceeded. cbn [order_update prisma].
  unfold prisma_order_update.
  destruct (orders db !! paymentIntentId) as [o|]; [|done].
  change (user_update_cart_deleteMany prisma)
    with prisma_user_update_cart_deleteMany.
  cbn [userId items].
  destruct (truthy (userId o)); [|done].
  match goal with
  | |- context [prisma_user_update_cart_deleteMany ?a ?b ?c] =>
      destruct (prisma_user_update_cart_deleteMany a b c)
  end; reflexivity.
Qed.

Lemma lookup_deleteMany_in (ids : list string) (m : gmap string Z) p :
  deleteMany_in ids m !! p = if bool_decide (p ∈ ids) then None else m !! p.
Proof.
  unfold deleteMany_in. rewrite map_lookup_filter.
  destruct (m !! p) as [x|]; cbn; [|by case_bool_decide].
  case_bool_decide; case_guard; cbn in *; done || contradiction.
Qed.

Lemma deleteMany_in_idemp (ids : list string) (m : gmap string Z) :
  deleteMany_in ids (deleteMany_in ids m) = deleteMany_in ids m.
Proof.
  apply map_eq. intros p. rewrite !lookup_deleteMany_in.
  by case_bool_decide.
Qed.

(** C7. When the signature verification fails, the handler answers 400
    at once; the database is the one it was given, and this holds for every
    client, so no call on it was made. *)
Theorem webhook_bad_signature stripe client secret req db err :
  constructEvent stripe (body req) (default "" (stripe_signature req)) secret
    = inl err →
  handleStripeWebhook stripe client secret req db
    = (Respond 400 (Text ("Webhook Error: " +:+ err)), db).
Proof.
  intros Hsig. unfold handleStripeWebhook. by rewrite Hsig.
Qed.

(** C7 on a request with a forged signature. *)
Lemma webhook_bad_signature_witness :
  constructEvent Samples.stripe_stub "pi_1" "forged" "whsec"
    = inl "No signatures found matching the expected signature"
  ∧ handleStripeWebhook Samples.stripe_stub prisma "whsec"
      (Samples.webhook "pi_1" "forged") (Samples.db_of paymentInitiated)
    = (Respond 400
         (Text "Webhook Error: No signatures found matching the expected signature"),
       Samples.db_of paymentInitiated).
Proof.
  split; [reflexivity|].
  apply (webhook_bad_signature Samples.stripe_stub prisma "whsec"
           (Samples.webhook "pi_1" "forged") (Samples.db_of paymentInitiated)
           "No signatures found matching the expected signature").
  reflexivity.
Defined.

(** C1. A succeeded-payment event whose payment-intent id matches no
    stored order does not get the 404 answer: [order.update] rejects, the
    handler forwards the error to [next], and nothing is written. *)
Theorem webhook_unknown_payment_intent stripe secret req db event :
  constructEvent stripe (body req) (default "" (stripe_signature req)) secret
    = inr event →
  type event = "payment_intent.succeeded" →
  orders db !! data_object_id event = None →
  handleStripeWebhook stripe prisma secret req db
    = (Next (RecordNotFound "Order"), db).
Proof.
  intros Hsig Htype Hnone. unfold handleStripeWebhook.
  rewrite Hsig, Htype, String.eqb_refl, onPaymentSucceeded_prisma.
  by rewrite Hnone.
Qed.

(** C1 on the event for ["pi_999"] against a store that holds ["pi_1"]. *)
Lemma webhook_unknown_payment_intent_witness :
  orders (Samples.db_of paymentInitiated) !! "pi_999" = None
  ∧ handleStripeWebhook Samples.stripe_stub prisma "whsec"
      (Samples.webhook "pi_999" "good") (Samples.db_of paymentInitiated)
    = (Next (RecordNotFound "Order"), Samples.db_of paymentInitiated).
Proof.
  split; [reflexivity|].
  apply (webhook_unknown_payment_intent Samples.stripe_stub "whsec"
           (Samples.webhook "pi_999" "good") (Samples.db_of paymentInitiated)
           {| type := "payment_intent.succeeded";
              data_object_id := "pi_999" |});
    reflexivity.
Defined.

(** C5 as stated fails: the delivery for the unknown ["pi_999"] ends in
    [next(err)], which is no acknowledgment. *)
Lemma webhook_unknown_payment_intent_rejected :
  let out := (handleStripeWebhook Samples.stripe_stub prisma "whsec"
                (Samples.webhook "pi_999" "good")
                (Samples.db_of paymentInitiated)).1 in
  out = Next (RecordNotFound "Order") ∧ acknowledged out = false.
Proof. split; reflexivity. Qed.

(** C5, amended. When the order lookup of a succeeded-payment event fails
    (the update is rejected or delivers no order), the handler does not
    acknowledge receipt: its outcome is never a 2xx response. *)
Theorem webhook_lookup_failure_not_acknowledged
    stripe client secret req db event :
  constructEvent stripe (body req) (default "" (stripe_signature req)) secret
    = inr event →
  type event = "payment_intent.succeeded" →
  lookup_failed
    (order_update client db (data_object_id event) paymentSucceeded) = true →
  acknowledged (handleStripeWebhook stripe client secret req db).1 = false.
Proof.
  intros Hsig Htype Hfail. unfold handleStripeWebhook.
  rewrite Hsig, Htype, String.eqb_refl.
  unfold onPaymentSucceeded.
  destruct (order_update client db (data_object_id event) paymentSucceeded)
    as [err|[[o|] db1]]; cbn in *; done.
Qed.

(** C5, amended, on the event for ["pi_999"]. *)
Lemma webhook_lookup_failure_not_acknowledged_witness :
  lookup_failed
    (order_update prisma (Samples.db_of paymentInitiated) "pi_999"
       paymentSucceeded) = true
  ∧ acknowledged
      (handleStripeWebhook Samples.stripe_stub prisma "whsec"
         (Samples.webhook "pi_999" "good")
         (Samples.db_of paymentInitiated)).1 = false.
Proof.
  split; [reflexivity|].
  apply (webhook_lookup_failure_not_acknowledged Samples.stripe_stub prisma
           "whsec" (Samples.webhook "pi_999" "good")
           (Samples.db_of paymentInitiated)
           {| type := "payment_intent.succeeded";
              data_object_id := "pi_999" |});
    reflexivity.
Defined.

(** A second run from the state the first one left ends as the first and
    leaves that state as it is. *)
Lemma onPaymentSucceeded_again paymentIntentId db r db' :
  onPaymentSucceeded prisma paymentIntentId db = (r, db') →
  onPaymentSucceeded prisma paymentIntentId db' = (r, db').
Proof.
  rewrite (onPaymentSucceeded_prisma paymentIntentId db).
  destruct (orders db !! paymentIntentId) as [o|] eqn:Ho; cbv zeta.
  2:{ intros [= <- <-]. by rewrite onPaymentSucceeded_prisma, Ho. }
  destruct (truthy (userId o)) eqn:Htruthy.
  - unfold prisma_user_update_cart_deleteMany. cbn [users orders product_ids].
    destruct (users db !! default "" (userId o)) as [u|] eqn:Hu;
      [destruct (cart u) as [c|] eqn:Hc|];
      intros [= <- <-];
      rewrite onPaymentSucceeded_prisma; cbn [orders users product_ids];
      rewrite lookup_insert_eq; cbv zeta; cbn [userId items orderStatus];
      rewrite Htruthy, insert_insert_eq;
      unfold prisma_user_update_cart_deleteMany; cbn [users orders product_ids].
    + rewrite lookup_insert_eq. cbn [cart cart_id cart_items].
      by rewrite insert_insert_eq, deleteMany_in_idemp.
    + by rewrite Hu, Hc.
    + by rewrite Hu.
  - intros [= <- <-]. rewrite onPaymentSucceeded_prisma. cbn [orders users product_ids].
    rewrite lookup_insert_eq. cbv zeta. cbn [userId items orderStatus].
    by rewrite Htruthy, insert_insert_eq.
Qed.

(** C2, amended. Running [onPaymentSucceeded] a second time with the same
    payment-intent id leaves the orders and the carts as the first run left
    them, and it ends as the first run ended: the second run throws only
    when the first one did. In particular, for a stored order whose owner,
    if it has one, has a cart, neither run throws: the items removed by the
    first run are absent for the [deleteMany] of the second, which is no
    error. *)
Theorem onPaymentSucceeded_twice paymentIntentId db :
  let once := onPaymentSucceeded prisma paymentIntentId db in
  let twice := onPaymentSucceeded prisma paymentIntentId once.2 in
  twice.2 = once.2
  ∧ twice.1 = once.1
  ∧ (∀ o, orders db !! paymentIntentId = Some o →
       (truthy (userId o) = true →
        ∃ u c, users db !! default "" (userId o) = Some u
               ∧ cart u = Some c) →
       once.1 = inr None ∧ twice.1 = inr None).
Proof.
  cbv zeta.
  assert (Hsame :
    onPaymentSucceeded prisma paymentIntentId
      (onPaymentSucceeded prisma paymentIntentId db).2
    = onPaymentSucceeded prisma paymentIntentId db).
  { destruct (onPaymentSucceeded prisma paymentIntentId db)
      as [r db'] eqn:Hrun.
    cbn [snd]. by rewrite (onPaymentSucceeded_again _ _ _ _ Hrun). }
  rewrite Hsame. split; [done|]. split; [done|].
  intros o Ho Hcart. rewrite onPaymentSucceeded_prisma, Ho. cbv zeta.
  destruct (truthy (userId o)); [|done].
  destruct Hcart as (u & c & Hu & Hc); [done|].
  unfold prisma_user_update_cart_deleteMany. cbn [users].
  by rewrite Hu, Hc.
Qed.

(** C2 as stated fails: not every second run is free of errors. For the
    order of a user without a cart both runs throw, and so do both runs
    for a payment-intent id that matches no order. *)
Lemma second_delivery_throws_again :
  let once := onPaymentSucceeded prisma "pi_1" Samples.db_without_cart in
  let twice := onPaymentSucceeded prisma "pi_1" once.2 in
  let unknown :=
    onPaymentSucceeded prisma "pi_999"
      (onPaymentSucceeded prisma "pi_999" Samples.db_without_cart).2 in
  is_Some (orders Samples.db_without_cart !! "pi_1")
  ∧ once.1 = inl (RecordNotFound "Cart")
  ∧ twice.1 = inl (RecordNotFound "Cart")
  ∧ unknown.1 = inl (RecordNotFound "Order").
Proof.
  cbv zeta. split; [by eexists|].
  repeat split; vm_compute; reflexivity.
Qed.

(** The two runs on the sample store: both fall through to the
    acknowledgment, and P1 and P2 leave the cart once. *)
Example two_deliveries_sample :
  let after :=
    {| orders := {[ "pi_1" := Samples.order_P1_P2 paymentSucceeded ]};
       users := {[ "U" := {| cart := Some {| cart_id := "cart_U";
                                            cart_items := {[ "P3" := 2 ]} |}
                          |} ]};
       product_ids := {[ "P1"; "P2"; "P3"; "P4" ]} |} in
  onPaymentSucceeded prisma "pi_1" (Samples.db_of paymentInitiated)
    = (inr None, after)
  ∧ onPaymentSucceeded prisma "pi_1" after = (inr None, after).
Proof. split; vm_compute; reflexivity. Qed.

(** C4. When the order has an owning user, the branch removes from that
    user's cart every item whose product is among the order's items,
    whatever its quantity, and keeps the other items; when the order has no
    owning user, the users and their carts are left as they were. User ids
    are uuids, so the owner's id is not the empty string. *)
Theorem onPaymentSucceeded_removes_purchased paymentIntentId db o :
  orders db !! paymentIntentId = Some o →
  let after := onPaymentSucceeded prisma paymentIntentId db in
  (∀ uid u c,
      userId o = Some uid → uid ≠ "" →
      users db !! uid = Some u → cart u = Some c →
      after.1 = inr None
      ∧ ∃ c', users after.2 !! uid = Some {| cart := Some c' |}
          ∧ cart_id c' = cart_id c
          ∧ ∀ p, cart_items c' !! p =
                 if bool_decide (p ∈ map oi_productId (items o))
                 then None else cart_items c !! p)
  ∧ (userId o = None → after.1 = inr None ∧ users after.2 = users db).
Proof.
  intros Ho. cbv zeta. rewrite onPaymentSucceeded_prisma, Ho. cbv zeta.
  split.
  - intros uid u c Huid Hne Hu Hc. rewrite Huid.
    change (default "" (Some uid)) with uid. cbn [truthy].
    destruct (String.eqb_spec uid "") as [|_]; [done|]. cbn [negb].
    unfold prisma_user_update_cart_deleteMany. cbn [users].
    rewrite Hu, Hc. cbn [fst snd users]. split; [done|].
    eexists. rewrite lookup_insert_eq. split; [reflexivity|].
    cbn [cart_id cart_items]. split; [done|].
    intros p. apply lookup_deleteMany_in.
  - intros Hguest. by rewrite Hguest.
Qed.

(** C4 on the sample store: P1 (quantity 5) and P2 (quantity 1) are
    removed, P3 stays. *)
Lemma onPaymentSucceeded_removes_purchased_witness :
  orders (Samples.db_of paymentInitiated) !! "pi_1"
    = Some (Samples.order_P1_P2 paymentInitiated)
  ∧ ∃ c', users (onPaymentSucceeded prisma "pi_1"
                   (Samples.db_of paymentInitiated)).2 !! "U"
          = Some {| cart := Some c' |}
      ∧ cart_items c' !! "P1" = None
      ∧ cart_items c' !! "P2" = None
      ∧ cart_items c' !! "P3" = Some 2.
Proof.
  split; [reflexivity|].
  destruct (proj1 (onPaymentSucceeded_removes_purchased "pi_1"
                     (Samples.db_of paymentInitiated)
                     (Samples.order_P1_P2 paymentInitiated) eq_refl)
              "U" {| cart := Some Samples.cart_U |} Samples.cart_U)
    as (_ & c' & Hc' & _ & Hitems); [reflexivity|done|reflexivity|reflexivity|].
  exists c'. split; [exact Hc'|].
  rewrite !Hitems. repeat split; reflexivity.
Defined.

(** ** Order status across requests *)

Lemma onPaymentSucceeded_orders paymentIntentId db :
  orders (onPaymentSucceeded prisma paymentIntentId db).2 =
  match orders db !! paymentIntentId with
  | None => orders db
  | Some o =>
      <[paymentIntentId := {| userId := userId o; items := items o;
                              orderStatus := paymentSucceeded |}]> (orders db)
  end.
Proof.
  rewrite onPaymentSucceeded_prisma.
  destruct (orders db !! paymentIntentId) as [o|]; [|done]. cbv zeta.
  destruct (truthy (userId o)); [|done].
  unfold prisma_user_update_cart_deleteMany. cbn [users].
  destruct (users db !! default "" (userId o)) as [u|]; [|done].
  by destruct (cart u).
Qed.

Lemma handleStripeWebhook_db stripe client secret req db :
  (handleStripeWebhook stripe client secret req db).2 =
  match constructEvent stripe (body req) (default "" (stripe_signature req))
          secret with
  | inl _ => db
  | inr event =>
      if String.eqb (type event) "payment_intent.succeeded"
      then (onPaymentSucceeded client (data_object_id event) db).2
      else db
  end.
Proof.
  unfold handleStripeWebhook.
  destruct (constructEvent stripe _ _ _) as [err|event]; [done|].
  destruct (String.eqb (type event) "payment_intent.succeeded"); [|done].
  by destruct (onPaymentSucceeded client (data_object_id event) db)
    as [[err|[response|]] db'].
Qed.

Lemma step_order_status stripe secret op db paymentIntentId o :
  orders db !! paymentIntentId = Some o →
  ∃ o', orders (step stripe prisma secret op db).2 !! paymentIntentId
        = Some o'
      ∧ kept_or_succeeded (orderStatus o) (orderStatus o').
Proof.
  intros Ho. destruct op as [payload|req]; cbn [step].
  - unfold createPaymentIntent.
    destruct (paymentIntents_create stripe payload) as [err|intent];
      [exists o; split; [done|by left]|].
    change (order_create prisma) with prisma_order_create.
    unfold prisma_order_create.
    cbn [d_stripePaymentIntentId d_user d_items d_orderStatus].
    destruct (orders db !! id intent) as [existing|] eqn:Hnew;
      [exists o; split; [done|by left]|].
    repeat match goal with
           | |- context [if ?b then inl _ else _] =>
               destruct b; [exists o; split; [done|by left]|]
           end.
    cbn [snd orders]. exists o. split; [|by left].
    rewrite lookup_insert_ne; [done|]. intros Heq. congruence.
  - rewrite handleStripeWebhook_db.
    destruct (constructEvent stripe _ _ _) as [err|event];
      [exists o; split; [done|by left]|].
    destruct (String.eqb (type event) "payment_intent.succeeded");
      [|exists o; split; [done|by left]].
    rewrite onPaymentSucceeded_orders.
    destruct (orders db !! data_object_id event) as [target|] eqn:Htarget;
      [|exists o; split; [done|by left]].
    destruct (decide (data_object_id event = paymentIntentId)) as [Heq|Hne].
    + rewrite Heq, lookup_insert_eq. eexists. split; [done|]. by right.
    + rewrite lookup_insert_ne by done. exists o. split; [done|by left].
Qed.

(** The status of a shipped order is set back by a succeeded-payment
    event, against C6 as stated. *)
Lemma webhook_moves_shipped_order_back :
  let db := Samples.db_of shipped in
  let db' := (handleStripeWebhook Samples.stripe_stub prisma "whsec"
                (Samples.webhook "pi_1" "good") db).2 in
  orderStatus <$> orders db !! "pi_1" = Some shipped
  ∧ orderStatus <$> orders db' !! "pi_1" = Some paymentSucceeded
  ∧ rank paymentSucceeded < rank shipped.
Proof. repeat split; vm_compute; reflexivity. Qed.

(** C6, amended. Across any sequence of order creations and webhook
    deliveries a stored order stays stored and its status is what it was or
    [paymentSucceeded]: it never becomes [paymentInitiated] again, and a
    status of [paymentInitiated] or [paymentSucceeded] never moves
    backward. *)
Theorem order_status_after_requests stripe secret ops db paymentIntentId o :
  orders db !! paymentIntentId = Some o →
  ∃ o', orders (run stripe prisma secret ops db) !! paymentIntentId = Some o'
      ∧ kept_or_succeeded (orderStatus o) (orderStatus o')
      ∧ (orderStatus o' = paymentInitiated →
         orderStatus o = paymentInitiated)
      ∧ (rank (orderStatus o) ≤ rank paymentSucceeded →
         rank (orderStatus o) ≤ rank (orderStatus o')).
Proof.
  intros Ho.
  assert (Hkept : ∃ o',
    orders (run stripe prisma secret ops db) !! paymentIntentId = Some o'
    ∧ kept_or_succeeded (orderStatus o) (orderStatus o')).
  { unfold run. revert db o Ho.
    induction ops as [|op ops IH]; intros db o Ho; cbn [foldl].
    - exists o. split; [done|by left].
    - destruct (step_order_status stripe secret op db paymentIntentId o Ho)
        as (o1 & Ho1 & Hk1).
      destruct (IH _ o1 Ho1) as (o2 & Ho2 & Hk2).
      exists o2. split; [done|].
      unfold kept_or_succeeded in *.
      destruct Hk2 as [Hk2|Hk2]; rewrite Hk2; [done|by right]. }
  destruct Hkept as (o' & Ho' & Hk). exists o'.
  split; [done|]. split; [done|].
  destruct Hk as [Hk|Hk]; rewrite Hk; [by split|].
  split; [done|]. destruct (orderStatus o); cbn; lia.
Qed.

(** C6, amended, on the sample store: the order is created, paid, and the
    notification is delivered a second time. *)
Lemma order_status_after_requests_witness :
  orders (Samples.db_of paymentInitiated) !! "pi_1"
    = Some (Samples.order_P1_P2 paymentInitiated)
  ∧ ∃ o', orders (run Samples.stripe_stub prisma "whsec"
                    [OpCreatePaymentIntent
                       {| payload_items := []; payload_userId := None |};
                     OpStripeWebhook (Samples.webhook "pi_1" "good");
                     OpStripeWebhook (Samples.webhook "pi_1" "good")]
                    (Samples.db_of paymentInitiated)) !! "pi_1" = Some o'
      ∧ rank paymentInitiated ≤ rank (orderStatus o').
Proof.
  split; [reflexivity|].
  destruct (order_status_after_requests Samples.stripe_stub "whsec"
              [OpCreatePaymentIntent
                 {| payload_items := []; payload_userId := None |};
               OpStripeWebhook (Samples.webhook "pi_1" "good");
               OpStripeWebhook (Samples.webhook "pi_1" "good")]
              (Samples.db_of paymentInitiated) "pi_1"
              (Samples.order_P1_P2 paymentInitiated) eq_refl)
    as (o' & Ho' & _ & _ & Hrank).
  exists o'. split; [exact Ho'|]. apply Hrank. cbn. lia.
Defined.

End Webhook.

(** ** The cart reconciler *)

Section Reconciler.
Import CartUtil.

Implicit Types (D : list MutableCartItemPayload) (C : gmap string Z)
  (item : MutableCartItemPayload) (a : ActionArrays).

Lemma getActionArrays_snoc D C item :
  getActionArrays (D ++ [item]) C =
  let acc := getActionArrays D C in
  {| creates := creates acc ++ (if is_create C item then [item] else []);
     updates := updates acc ++ (if is_update C item then [item] else []);
     deletes := deletes acc
                ++ (if is_delete item then [productId item] else []) |}.
Proof.
  unfold getActionArrays at 1. rewrite foldl_app. cbn [foldl].
  fold (getActionArrays D C). cbv zeta.
  unfold is_create, is_update, is_delete.
  destruct (getActionArrays D C) as [cs us ds]. cbn [creates updates deletes].
  destruct (productQuantity item =? 0); cbn [negb andb].
  { by rewrite !app_nil_r. }
  destruct (C !! productId item) as [current|]; cbn.
  - destruct (current =? productQuantity item); cbn; by rewrite !app_nil_r.
  - by rewrite !app_nil_r.
Qed.

(** The batches are the entries of the desired list that pass the
    corresponding test, in the order of the list. *)
Lemma getActionArrays_filter D C :
  getActionArrays D C =
  {| creates := List.filter (is_create C) D;
     updates := List.filter (is_update C) D;
     deletes := map productId (List.filter is_delete D) |}.
Proof.
  induction D as [|item D IH] using rev_ind; [done|].
  rewrite getActionArrays_snoc, IH. cbv zeta. cbn [creates updates deletes].
  rewrite !List.filter_app, map_app. cbn [List.filter].
  by destruct (is_create C item), (is_update C item), (is_delete item).
Qed.

Lemma elem_of_filter_list {A} (f : A → bool) (l : list A) x :
  x ∈ List.filter f l ↔ x ∈ l ∧ f x = true.
Proof. rewrite !list_elem_of_In. apply List.filter_In. Qed.

(** C3. Every entry of the desired list is classified by the current
    cart: absent with a quantity above 0, it is in the creates; present
    with another quantity (other than the removal signal 0), it is in the
    updates; present with the same quantity, it contributes no operation;
    with quantity 0 its product is in the deletes. Conversely the creates
    and the updates hold no entry with quantity 0, and nothing but what
    these rules put there. The example of the specification evaluates as
    it says. *)
Theorem getActionArrays_classifies :
  (∀ D C,
     let a := getActionArrays D C in
     (∀ item, item ∈ D → C !! productId item = None →
        0 < productQuantity item → item ∈ creates a)
     ∧ (∀ item current, item ∈ D → C !! productId item = Some current →
          current ≠ productQuantity item → productQuantity item ≠ 0 →
          item ∈ updates a)
     ∧ (∀ D1 item D2, D = D1 ++ item :: D2 →
          C !! productId item = Some (productQuantity item) →
          productQuantity item ≠ 0 →
          a = getActionArrays (D1 ++ D2) C)
     ∧ (∀ item, item ∈ D → productQuantity item = 0 →
          productId item ∈ deletes a)
     ∧ (∀ item, item ∈ creates a →
          item ∈ D ∧ productQuantity item ≠ 0
          ∧ C !! productId item = None)
     ∧ (∀ item, item ∈ updates a →
          item ∈ D ∧ productQuantity item ≠ 0
          ∧ ∃ current, C !! productId item = Some current
                       ∧ current ≠ productQuantity item)
     ∧ (∀ id, id ∈ deletes a →
          ∃ item, item ∈ D ∧ productId item = id
                  ∧ productQuantity item = 0))
  ∧ getActionArrays [mkPayload "A" 0; mkPayload "C" 3]
                    {[ "A" := 2; "B" := 1 ]}
    = {| creates := [mkPayload "C" 3]; updates := []; deletes := ["A"] |}.
Proof.
  split; [|vm_compute; reflexivity].
  intros D C. cbv zeta. rewrite getActionArrays_filter.
  cbn [creates updates deletes]. repeat split.
  - intros item Hin Habsent Hq. apply elem_of_filter_list. split; [done|].
    unfold is_create. rewrite Habsent.
    destruct (Z.eqb_spec (productQuantity item) 0); [lia|].
    by rewrite bool_decide_eq_true_2.
  - intros item current Hin Hcur Hne Hq. apply elem_of_filter_list.
    split; [done|]. unfold is_update. rewrite Hcur.
    destruct (Z.eqb_spec (productQuantity item) 0); [done|].
    by destruct (Z.eqb_spec current (productQuantity item)).
  - intros D1 item D2 -> Hsame Hq. rewrite getActionArrays_filter.
    rewrite !List.filter_app. cbn [List.filter].
    unfold is_create at 2, is_update at 2, is_delete at 2.
    rewrite Hsame, Z.eqb_refl.
    destruct (Z.eqb_spec (productQuantity item) 0); [done|].
    cbn [negb andb]. rewrite bool_decide_eq_false_2 by done. done.
  - intros item Hin Hq. apply list_elem_of_fmap. exists item.
    split; [done|]. apply elem_of_filter_list. split; [done|].
    unfold is_delete. by rewrite Hq.
  - by apply elem_of_filter_list in H as [? ?].
  - apply elem_of_filter_list in H as [_ H]. unfold is_create in H.
    apply andb_prop in H as [H _].
    destruct (Z.eqb_spec (productQuantity item) 0); done.
  - apply elem_of_filter_list in H as [_ H]. unfold is_create in H.
    apply andb_prop in H as [_ H]. by apply bool_decide_eq_true in H.
  - by apply elem_of_filter_list in H as [? ?].
  - apply elem_of_filter_list in H as [_ H]. unfold is_update in H.
    apply andb_prop in H as [H _].
    destruct (Z.eqb_spec (productQuantity item) 0); done.
  - apply elem_of_filter_list in H as [_ H]. unfold is_update in H.
    apply andb_prop in H as [_ H].
    destruct (C !! productId item) as [current|]; [|done].
    exists current. split; [done|].
    by destruct (Z.eqb_spec current (productQuantity item)).
  - intros id Hid. apply list_elem_of_fmap in Hid as (item & -> & Hitem).
    apply elem_of_filter_list in Hitem as [Hin Hzero].
    exists item. repeat split; [done|].
    unfold is_delete in Hzero. by apply Z.eqb_eq in Hzero.
Qed.

Lemma apply_write_other (m : gmap string Z) w p :
  write_key w ≠ p → apply_write m w !! p = m !! p.
Proof.
  destruct w as [item|id|item]; cbn [apply_write write_key]; intros Hne.
  - by rewrite lookup_alter_ne.
  - by rewrite lookup_delete_ne.
  - by rewrite lookup_insert_ne.
Qed.

Lemma apply_writes_other ws (m : gmap string Z) p :
  (∀ w, w ∈ ws → write_key w ≠ p) → apply_writes ws m !! p = m !! p.
Proof.
  unfold apply_writes. revert m.
  induction ws as [|w ws IH]; intros m Hws; cbn [foldl]; [done|].
  rewrite IH.
  - apply apply_write_other, Hws. left.
  - intros w' Hw'. apply Hws. by right.
Qed.

(** Every write of the batches is about a product of the desired list. *)
Lemma writes_of_keys D C w :
  w ∈ writes_of (getActionArrays D C) → write_key w ∈ map productId D.
Proof.
  rewrite getActionArrays_filter. unfold writes_of.
  cbn [creates updates deletes]. rewrite !elem_of_app.
  intros [Hw|[Hw|Hw]];
    apply list_elem_of_fmap in Hw as (x & -> & Hx); cbn [write_key].
  - apply elem_of_filter_list in Hx as [Hx _].
    apply list_elem_of_fmap. by exists x.
  - apply list_elem_of_fmap in Hx as (item & -> & Hitem).
    apply elem_of_filter_list in Hitem as [Hitem _].
    apply list_elem_of_fmap. by exists item.
  - apply elem_of_filter_list in Hx as [Hx _].
    apply list_elem_of_fmap. by exists x.
Qed.

(** C8. A product that the cart holds and the desired list does not
    mention is in none of the three batches, and its stored quantity is the
    same after the writes of the batches, applied in any order and any
    number of them. *)
Theorem reconcile_leaves_unmentioned D C p q :
  C !! p = Some q →
  p ∉ map productId D →
  let a := getActionArrays D C in
  (p ∉ map productId (creates a))
  ∧ (p ∉ map productId (updates a))
  ∧ (p ∉ deletes a)
  ∧ ∀ ws, ws ⊆ writes_of a → apply_writes ws C !! p = Some q.
Proof.
  intros Hp Hnot. cbv zeta.
  assert (Hkeys : ∀ w, w ∈ writes_of (getActionArrays D C) →
                       write_key w ≠ p).
  { intros w Hw Heq. apply Hnot. rewrite <- Heq.
    by apply (writes_of_keys D C). }
  repeat split.
  - intros Hin. apply list_elem_of_fmap in Hin as (item & Heq & Hitem).
    apply (Hkeys (WCreate item)); [|done].
    unfold writes_of. rewrite !elem_of_app. right. right.
    apply list_elem_of_fmap. by exists item.
  - intros Hin. apply list_elem_of_fmap in Hin as (item & Heq & Hitem).
    apply (Hkeys (WUpdate item)); [|done].
    unfold writes_of. rewrite !elem_of_app. left.
    apply list_elem_of_fmap. by exists item.
  - intros Hin. apply (Hkeys (WDelete p)); [|done].
    unfold writes_of. rewrite !elem_of_app. right. left.
    apply list_elem_of_fmap. by exists p.
  - intros ws Hws. rewrite apply_writes_other; [done|].
    intros w Hw. apply Hkeys, Hws, Hw.
Qed.

(** C8 on the cart and the desired list of the specification's example:
    B, which the list does not mention, keeps its quantity 1. *)
Lemma reconcile_leaves_unmentioned_witness :
  let C : gmap string Z := {[ "A" := 2; "B" := 1 ]} in
  let D := [mkPayload "A" 0; mkPayload "C" 3] in
  C !! "B" = Some 1
  ∧ ("B" ∉ map productId D)
  ∧ apply_writes (writes_of (getActionArrays D C)) C !! "B" = Some 1.
Proof.
  cbv zeta.
  assert (Hnot : "B" ∉ map productId [mkPayload "A" 0; mkPayload "C" 3]).
  { cbn. intros Hin. repeat (apply elem_of_cons in Hin as [Hin|Hin];
                               [discriminate Hin|]).
    inversion Hin. }
  assert (Hheld : ({[ "A" := 2; "B" := 1 ]} : gmap string Z) !! "B"
                  = Some 1) by (vm_compute; reflexivity).
  split; [exact Hheld|]. split; [exact Hnot|].
  destruct (reconcile_leaves_unmentioned
              [mkPayload "A" 0; mkPayload "C" 3]
              ({[ "A" := 2; "B" := 1 ]} : gmap string Z) "B" 1
              Hheld Hnot) as (_ & _ & _ & Hframe).
  by apply Hframe.
Defined.

(** The writes for an entry with quantity 0 whose product the cart does
    not hold leave the cart as it is. *)
Lemma delete_of_absent_is_noop C id :
  C !! id = None →
  apply_writes (writes_of (getActionArrays [mkPayload id 0] C)) C = C.
Proof.
  intros Habsent. cbn. by apply delete_id.
Qed.

End Reconciler.

(** ** More on the client-side cart *)

Section ClientCartEdits.
Import Client.

Implicit Types (cart : list IndividualCartItem) (id : string) (q : Z).

Lemma updateLocalCart_zero cart id :
  updateLocalCart cart id 0 = Some (others id cart).
Proof.
  unfold updateLocalCart. by destruct cart.
Qed.

(** The two ways an edit with a quantity other than 0 ends. *)
Lemma updateLocalCart_nonzero cart id q :
  q ≠ 0 →
  (∃ l1 x l2, cart = l1 ++ x :: l2 ∧ productId x = id
      ∧ (∀ y, y ∈ l1 → productId y ≠ id)
      ∧ updateLocalCart cart id q = Some (l1 ++ mkItem id q :: l2))
  ∨ ((∀ y, y ∈ cart → productId y ≠ id)
      ∧ updateLocalCart cart id q = Some (cart ++ [mkItem id q])).
Proof.
  intros Hq. unfold updateLocalCart.
  destruct (Z.eqb_spec q 0) as [|_]; [done|]. rewrite andb_false_r.
  destruct (findIndex_split
              (λ cartItem, String.eqb (productId cartItem) id) cart)
    as [[Hi Hno]|(l1 & x & l2 & -> & Hx & Hl1 & Hi)]; rewrite Hi.
  - right. split; [|done]. intros y Hy Heq. specialize (Hno y Hy).
    cbn beta in Hno. by rewrite Heq, String.eqb_refl in Hno.
  - left. exists l1, x, l2.
    destruct (Z.eqb_spec (Z.of_nat (length l1)) (-1)) as [|_]; [lia|].
    cbn [negb]. rewrite array_with_middle.
    apply String.eqb_eq in Hx. repeat split; try done.
    intros y Hy Heq. specialize (Hl1 y Hy). cbn beta in Hl1.
    by rewrite Heq, String.eqb_refl in Hl1.
Qed.

Lemma NoDup_others id cart :
  NoDup (map productId cart) → NoDup (map productId (others id cart)).
Proof.
  unfold others. induction cart as [|e cart IH]; [done|].
  cbn [map List.filter]. rewrite NoDup_cons. intros [Hnot Hnd].
  destruct (negb (productId e =? id)%string); [|by apply IH].
  cbn [map]. apply NoDup_cons. split; [|by apply IH].
  intros Hin. apply Hnot.
  apply list_elem_of_fmap in Hin as (y & Hy & Hin).
  apply elem_of_filter_list in Hin as [Hin _].
  apply list_elem_of_fmap. by exists y.
Qed.

(** X1. An edit keeps the cart free of duplicates: when no product occurs
    twice in the cart, none occurs twice in the cart [updateLocalCart]
    returns, for every product id and every quantity. *)
Theorem updateLocalCart_keeps_unique cart id q r :
  NoDup (map productId cart) →
  updateLocalCart cart id q = Some r →
  NoDup (map productId r).
Proof.
  intros Hnd Hr. destruct (decide (q = 0)) as [->|Hq].
  - rewrite updateLocalCart_zero in Hr. injection Hr as <-.
    by apply NoDup_others.
  - destruct (updateLocalCart_nonzero cart id q Hq)
      as [(l1 & x & l2 & -> & Hx & _ & Hrun)|[Hfree Hrun]];
      rewrite Hrun in Hr; injection Hr as <-.
    + rewrite map_app in *. cbn [map productId] in *. by rewrite <- Hx.
    + rewrite map_app. cbn [map productId]. apply NoDup_app.
      split; [done|]. split; [|apply NoDup_singleton].
      intros p Hp Hp'. apply list_elem_of_singleton in Hp' as ->.
      apply list_elem_of_fmap in Hp as (y & Hy & Hin).
      by apply (Hfree y).
Qed.

Lemma sample_cart_unique :
  NoDup (map productId [mkItem "a" 1; mkItem "b" 2]).
Proof.
  cbn. apply NoDup_cons. split; [|apply NoDup_singleton].
  intros Hin. apply list_elem_of_singleton in Hin. discriminate Hin.
Qed.

(** X1 on a cart of two products, one of which is edited. *)
Lemma updateLocalCart_keeps_unique_witness :
  NoDup (map productId [mkItem "a" 1; mkItem "b" 2])
  ∧ updateLocalCart [mkItem "a" 1; mkItem "b" 2] "b" 7
    = Some [mkItem "a" 1; mkItem "b" 7]
  ∧ NoDup (map productId [mkItem "a" 1; mkItem "b" 7]).
Proof.
  pose proof sample_cart_unique as Hnd.
  split; [exact Hnd|]. split; [reflexivity|].
  apply (updateLocalCart_keeps_unique
           [mkItem "a" 1; mkItem "b" 2] "b" 7 _ Hnd).
  reflexivity.
Defined.

(** X2. Repeating an edit changes nothing: applying [updateLocalCart] with
    the same product id and quantity to its own result returns that result
    again, also when the cart holds the product more than once. *)
Theorem updateLocalCart_idempotent cart id q :
  updateLocalCart cart id q ≫= (λ r, updateLocalCart r id q)
  = updateLocalCart cart id q.
Proof.
  destruct (decide (q = 0)) as [->|Hq].
  - rewrite updateLocalCart_zero. cbn [mbind option_bind].
    rewrite updateLocalCart_zero. f_equal. apply others_idemp.
  - destruct (updateLocalCart_nonzero cart id q Hq)
      as [(l1 & x & l2 & -> & Hx & Hl1 & Hrun)|[Hfree Hrun]];
      rewrite Hrun; cbn [mbind option_bind].
    + destruct (updateLocalCart_nonzero (l1 ++ mkItem id q :: l2) id q Hq)
        as [(l1' & x' & l2' & Heq & Hx' & Hl1' & Hrun')|[Hfree' _]].
      * destruct (first_split_unique id l1 l2 l1' l2' (mkItem id q) x')
          as [<- <-]; done.
      * exfalso. apply (Hfree' (mkItem id q)); [|done].
        apply elem_of_app. right. left.
    + destruct (updateLocalCart_nonzero (cart ++ [mkItem id q]) id q Hq)
        as [(l1' & x' & l2' & Heq & Hx' & Hl1' & Hrun')|[Hfree' _]].
      * destruct (first_split_unique id cart [] l1' l2' (mkItem id q) x')
          as [<- <-]; done.
      * exfalso. apply (Hfree' (mkItem id q)); [|done].
        apply elem_of_app. right. left.
Qed.

(** X3. A quantity other than 0 is stored as it is given, negative or not:
    the returned cart holds the entry [{id, q}], and it is one entry
    longer than the cart when the product was not in it, and as long as
    the cart otherwise. *)
Theorem updateLocalCart_nonzero_length cart id q :
  q ≠ 0 →
  ∃ r, updateLocalCart cart id q = Some r
     ∧ mkItem id q ∈ r
     ∧ length r = (length cart
                   + if bool_decide (id ∈ map productId cart)
                     then 0 else 1)%nat.
Proof.
  intros Hq.
  destruct (updateLocalCart_nonzero cart id q Hq)
    as [(l1 & x & l2 & -> & Hx & Hl1 & Hrun)|[Hfree Hrun]];
    rewrite Hrun; eexists; (split; [reflexivity|]).
  - split; [apply elem_of_app; right; left|].
    rewrite bool_decide_eq_true_2.
    + rewrite !length_app. cbn [length]. lia.
    + apply list_elem_of_fmap. exists x. split; [done|].
      apply elem_of_app. right. left.
  - split; [apply elem_of_app; right; left|].
    rewrite bool_decide_eq_false_2.
    + by rewrite length_app.
    + intros Hin. apply list_elem_of_fmap in Hin as (y & Hy & Hin).
      by apply (Hfree y).
Qed.

(** X3 on a negative quantity for a product the cart does not hold. *)
Lemma updateLocalCart_nonzero_length_witness :
  -2 ≠ 0
  ∧ ∃ r, updateLocalCart [mkItem "a" 1] "b" (-2) = Some r
       ∧ mkItem "b" (-2) ∈ r ∧ length r = 2%nat.
Proof.
  split; [lia|].
  destruct (updateLocalCart_nonzero_length [mkItem "a" 1] "b" (-2))
    as (r & Hr & Hin & Hlen); [lia|].
  exists r. split; [exact Hr|]. split; [exact Hin|]. exact Hlen.
Defined.

Lemma quantity_sum_app cart1 cart2 :
  quantity_sum (cart1 ++ cart2) = quantity_sum cart1 + quantity_sum cart2.
Proof.
  unfold quantity_sum.
  induction cart1 as [|e cart1 IH]; cbn [app foldr]; [done|].
  rewrite IH. lia.
Qed.

Lemma quantity_sum_nonneg cart :
  (∀ e, e ∈ cart → 0 ≤ productQuantity e) → 0 ≤ quantity_sum cart.
Proof.
  unfold quantity_sum. induction cart as [|e cart IH]; intros Hpos;
    cbn [foldr]; [lia|].
  assert (0 ≤ productQuantity e) by (apply Hpos; left).
  assert (0 ≤ foldr (λ e total, productQuantity e + total) 0 cart)
    by (apply IH; intros x Hx; apply Hpos; by right).
  lia.
Qed.

(** The loop of [getTotals] on quantities that are not negative and whose
    sum is a safe integer: every addition is exact. *)
Lemma getTotals_loop_quantity A
    (productsMap : gmap string (IndividualProduct A)) cart p0 q0 :
  exact_on_safe_integers A →
  0 ≤ q0 →
  (∀ e, e ∈ cart → 0 ≤ productQuantity e) →
  q0 + quantity_sum cart ≤ MAX_SAFE_INTEGER →
  (foldl
     (λ acc cartItem,
        (add A acc.1
           (mul A (default (of_int A 0)
                     (price <$> productsMap !! productId cartItem))
                  (of_int A (productQuantity cartItem))),
         add A acc.2 (of_int A (productQuantity cartItem))))
     (p0, of_int A q0) cart).2
  = of_int A (q0 + quantity_sum cart).
Proof.
  intros Hexact. revert p0 q0.
  induction cart as [|e cart IH]; intros p0 q0 Hq0 Hpos Hmax;
    cbn [foldl fst snd].
  - unfold quantity_sum. cbn [foldr]. by rewrite Z.add_0_r.
  - assert (He : 0 ≤ productQuantity e) by (apply Hpos; left).
    assert (Hrest : 0 ≤ quantity_sum cart).
    { apply quantity_sum_nonneg. intros x Hx. apply Hpos. by right. }
    change (quantity_sum (e :: cart))
      with (productQuantity e + quantity_sum cart) in *.
    unfold MAX_SAFE_INTEGER in *.
    rewrite Hexact by (unfold safe_integer, MAX_SAFE_INTEGER; lia).
    rewrite IH; [f_equal; lia|lia| |lia].
    intros x Hx. apply Hpos. by right.
Qed.

Lemma getTotals_quantity A cart
    (productsMap : gmap string (IndividualProduct A)) :
  exact_on_safe_integers A →
  (∀ e, e ∈ cart → 0 ≤ productQuantity e) →
  quantity_sum cart ≤ MAX_SAFE_INTEGER →
  totals_quantity (getTotals A cart productsMap)
  = of_int A (quantity_sum cart).
Proof.
  intros Hexact Hpos Hmax. unfold getTotals. cbn [totals_quantity].
  cbv zeta. by rewrite getTotals_loop_quantity.
Qed.

(** X4. With number addition exact on safe integers (as floating-point
    addition is), on a cart without duplicates whose quantities are not
    negative, for a new quantity that is not negative and keeps the total
    of the other products plus that quantity within
    [Number.MAX_SAFE_INTEGER]: the total quantity [getTotals] computes
    after the edit is the total quantity it computes for the other
    products, plus the new quantity. The edited product counts with its
    new quantity only, and the products map plays no part. *)
Theorem getTotals_quantity_after_edit A
    (productsMap : gmap string (IndividualProduct A)) cart id q r :
  exact_on_safe_integers A →
  NoDup (map productId cart) →
  (∀ e, e ∈ cart → 0 ≤ productQuantity e) →
  0 ≤ q →
  quantity_sum (others id cart) + q ≤ MAX_SAFE_INTEGER →
  updateLocalCart cart id q = Some r →
  totals_quantity (getTotals A r productsMap)
  = add A (totals_quantity (getTotals A (others id cart) productsMap))
          (of_int A q)
  ∧ totals_quantity (getTotals A r productsMap)
    = of_int A (quantity_sum (others id cart) + q).
Proof.
  intros Hexact Hnd Hpos Hq Hmax Hr.
  assert (Hothers_pos : ∀ e, e ∈ others id cart → 0 ≤ productQuantity e).
  { intros e He. apply Hpos. unfold others in He.
    by apply elem_of_filter_list in He as [He _]. }
  pose proof (quantity_sum_nonneg _ Hothers_pos) as Hothers.
  assert (Hsum : quantity_sum r = quantity_sum (others id cart) + q
                 ∧ ∀ e, e ∈ r → 0 ≤ productQuantity e).
  { destruct (decide (q = 0)) as [->|Hq0].
    - rewrite updateLocalCart_zero in Hr. injection Hr as <-.
      split; [lia|done].
    - destruct (updateLocalCart_nonzero cart id q Hq0)
        as [(l1 & x & l2 & -> & Hx & Hl1 & Hrun)|[Hfree Hrun]];
        rewrite Hrun in Hr; injection Hr as <-.
      + assert (Hl2 : ∀ y, y ∈ l2 → productId y ≠ id).
        { intros y Hy Heq. rewrite map_app in Hnd.
          apply NoDup_app in Hnd as (_ & _ & Hnd).
          cbn [map] in Hnd. apply NoDup_cons in Hnd as [Hnot _].
          apply Hnot. rewrite Hx, <- Heq.
          apply list_elem_of_fmap. by exists y. }
        split.
        * rewrite others_app, others_cons_id by done.
          rewrite !others_id_free by done.
          rewrite !quantity_sum_app.
          change (quantity_sum (mkItem id q :: l2))
            with (q + quantity_sum l2). lia.
        * intros e He. apply elem_of_app in He as [He|He].
          -- apply Hpos. apply elem_of_app. by left.
          -- apply elem_of_cons in He as [->|He]; [done|].
             apply Hpos. apply elem_of_app. right. by right.
      + split.
        * rewrite others_id_free by done. rewrite quantity_sum_app.
          change (quantity_sum [mkItem id q]) with (q + 0). lia.
        * intros e He. apply elem_of_app in He as [He|He]; [by apply Hpos|].
          by apply list_elem_of_singleton in He as ->. }
  destruct Hsum as [Hsum Hr_pos].
  rewrite (getTotals_quantity A r) by (try done; lia).
  rewrite (getTotals_quantity A (others id cart)) by (try done; lia).
  rewrite Hsum. split; [|done].
  symmetry. apply Hexact; unfold safe_integer, MAX_SAFE_INTEGER in *; lia.
Qed.

(** X4 with exact integer arithmetic: replacing quantity 2 of product b
    by 7 in a cart that also holds one a. *)
Lemma getTotals_quantity_after_edit_witness :
  let A := {| number := Z; of_int := λ z, z; add := Z.add; mul := Z.mul;
              round_cents := λ z, z |} in
  exact_on_safe_integers A
  ∧ NoDup (map productId [mkItem "a" 1; mkItem "b" 2])
  ∧ updateLocalCart [mkItem "a" 1; mkItem "b" 2] "b" 7
    = Some [mkItem "a" 1; mkItem "b" 7]
  ∧ totals_quantity (getTotals A [mkItem "a" 1; mkItem "b" 7] ∅) = 1 + 7.
Proof.
  cbv zeta. pose proof sample_cart_unique as Hnd.
  assert (Hexact : exact_on_safe_integers
            {| number := Z; of_int := λ z, z; add := Z.add; mul := Z.mul;
               round_cents := λ z, z |}) by (intros a b _ _ _; reflexivity).
  assert (Hrun : updateLocalCart [mkItem "a" 1; mkItem "b" 2] "b" 7
                 = Some [mkItem "a" 1; mkItem "b" 7]) by reflexivity.
  split; [exact Hexact|]. split; [exact Hnd|]. split; [exact Hrun|].
  refine (proj2 (getTotals_quantity_after_edit _ ∅
                   [mkItem "a" 1; mkItem "b" 2] "b" 7 _
                   Hexact Hnd _ _ _ Hrun)).
  - intros e He.
    repeat (apply elem_of_cons in He as [->|He]; [cbn; lia|]).
    inversion He.
  - lia.
  - vm_compute. discriminate.
Defined.

End ClientCartEdits.

(** ** More on the payment controller *)

Section PaymentRequests.
Import Schema PaymentController.

Implicit Types (stripe : StripeService) (client : PrismaClient)
  (db : Db) (req : Request) (secret : string).

(** X5. A verified event of any type other than
    ['payment_intent.succeeded'] is acknowledged with [{received: true}]
    and nothing is written, whatever the client. *)
Theorem webhook_unhandled_event_acknowledged
    stripe client secret req db event :
  constructEvent stripe (body req) (default "" (stripe_signature req)) secret
    = inr event →
  type event ≠ "payment_intent.succeeded" →
  handleStripeWebhook stripe client secret req db
    = (Respond 200 (ReceivedJson true), db).
Proof.
  intros Hsig Htype. unfold handleStripeWebhook. rewrite Hsig.
  by destruct (String.eqb_spec (type event) "payment_intent.succeeded").
Qed.

(** X5 on a [charge.refunded] event. *)
Lemma webhook_unhandled_event_acknowledged_witness :
  let stripe :=
    {| constructEvent := λ _ _ _,
         inr {| type := "charge.refunded"; data_object_id := "ch_1" |};
       paymentIntents_create := λ _, inl (StripeError "unused") |} in
  "charge.refunded" ≠ "payment_intent.succeeded"
  ∧ handleStripeWebhook stripe prisma "whsec"
      (Samples.webhook "ch_1" "good") (Samples.db_of paymentInitiated)
    = (Respond 200 (ReceivedJson true), Samples.db_of paymentInitiated).
Proof.
  cbv zeta. split; [discriminate|].
  apply (webhook_unhandled_event_acknowledged _ prisma "whsec"
           (Samples.webhook "ch_1" "good") (Samples.db_of paymentInitiated)
           {| type := "charge.refunded"; data_object_id := "ch_1" |});
    [reflexivity|discriminate].
Defined.

(** X6. The two writes of the succeeded-payment branch are not one
    transaction: when the order is found and the write on the owner's cart
    is rejected, the handler ends in [next(err)] while the status written
    by the first call stays. Stated for every client. *)
Theorem webhook_cart_failure_keeps_status
    stripe client secret req db event o db1 err :
  constructEvent stripe (body req) (default "" (stripe_signature req)) secret
    = inr event →
  type event = "payment_intent.succeeded" →
  order_update client db (data_object_id event) paymentSucceeded
    = inr (Some o, db1) →
  truthy (userId o) = true →
  user_update_cart_deleteMany client db1 (default "" (userId o))
    (map oi_productId (items o)) = inl err →
  handleStripeWebhook stripe client secret req db = (Next err, db1).
Proof.
  intros Hsig Htype Horder Howner Hcart. unfold handleStripeWebhook.
  rewrite Hsig, Htype, String.eqb_refl. unfold onPaymentSucceeded.
  by rewrite Horder, Howner, Hcart.
Qed.

(** X6 on an order whose owner has no cart: the provider gets an error,
    and the order is stored as paid. *)
Lemma webhook_cart_failure_keeps_status_witness :
  let db1 :=
    {| orders := {[ "pi_1" := Samples.order_P1_P2 paymentSucceeded ]};
       users := users Samples.db_without_cart;
       product_ids := product_ids Samples.db_without_cart |} in
  order_update prisma Samples.db_without_cart "pi_1" paymentSucceeded
    = inr (Some (Samples.order_P1_P2 paymentSucceeded), db1)
  ∧ user_update_cart_deleteMany prisma db1 "U" ["P1"; "P2"]
    = inl (RecordNotFound "Cart")
  ∧ handleStripeWebhook Samples.stripe_stub prisma "whsec"
      (Samples.webhook "pi_1" "good") Samples.db_without_cart
    = (Next (RecordNotFound "Cart"), db1).
Proof.
  cbv zeta.
  assert (Horder :
    order_update prisma Samples.db_without_cart "pi_1" paymentSucceeded
    = inr (Some (Samples.order_P1_P2 paymentSucceeded),
           {| orders := {[ "pi_1" := Samples.order_P1_P2 paymentSucceeded ]};
              users := users Samples.db_without_cart;
              product_ids := product_ids Samples.db_without_cart |}))
    by (vm_compute; reflexivity).
  split; [exact Horder|]. split; [reflexivity|].
  apply (webhook_cart_failure_keeps_status Samples.stripe_stub prisma "whsec"
           (Samples.webhook "pi_1" "good") Samples.db_without_cart
           {| type := "payment_intent.succeeded"; data_object_id := "pi_1" |}
           (Samples.order_P1_P2 paymentSucceeded) _
           (RecordNotFound "Cart") eq_refl eq_refl Horder eq_refl).
  reflexivity.
Defined.

(** The branch on a stored order whose owner, if any, has a cart. *)
Lemma onPaymentSucceeded_paid paymentIntentId db o :
  orders db !! paymentIntentId = Some o →
  (truthy (userId o) = true →
   ∃ u c, users db !! default "" (userId o) = Some u ∧ cart u = Some c) →
  ∃ db', onPaymentSucceeded prisma paymentIntentId db = (inr None, db')
       ∧ orders db'
         = <[paymentIntentId :=
               {| userId := userId o; items := items o;
                  orderStatus := paymentSucceeded |}]> (orders db)
       ∧ (∀ uid, userId o ≠ Some uid → users db' !! uid = users db !! uid).
Proof.
  intros Ho Hcart. rewrite onPaymentSucceeded_prisma, Ho. cbv zeta.
  destruct (truthy (userId o)) eqn:Howner; [|by eexists].
  destruct Hcart as (u & c & Hu & Hc); [done|].
  unfold prisma_user_update_cart_deleteMany. cbn [users].
  rewrite Hu, Hc. eexists. split; [reflexivity|].
  cbn [orders users product_ids]. split; [done|].
  intros uid Hother. apply lookup_insert_ne.
  destruct (userId o) as [v|]; [|done]. cbn. congruence.
Qed.

(** X7. When the order of a succeeded-payment event is stored and its
    owner, if it has one, has a cart, the handler acknowledges with
    [{received: true}]; the orders afterwards are the orders before with
    that one order's status set to [paymentSucceeded] (owner and items
    kept), and no user other than the owner is touched. *)
Theorem webhook_paid_order stripe secret req db event o :
  constructEvent stripe (body req) (default "" (stripe_signature req)) secret
    = inr event →
  type event = "payment_intent.succeeded" →
  orders db !! data_object_id event = Some o →
  (truthy (userId o) = true →
   ∃ u c, users db !! default "" (userId o) = Some u ∧ cart u = Some c) →
  let result := handleStripeWebhook stripe prisma secret req db in
  result.1 = Respond 200 (ReceivedJson true)
  ∧ orders result.2
    = <[data_object_id event :=
          {| userId := userId o; items := items o;
             orderStatus := paymentSucceeded |}]> (orders db)
  ∧ (∀ uid, userId o ≠ Some uid → users result.2 !! uid = users db !! uid).
Proof.
  intros Hsig Htype Ho Hcart. cbv zeta.
  destruct (onPaymentSucceeded_paid (data_object_id event) db o Ho Hcart)
    as (db' & Hrun & Horders & Husers).
  unfold handleStripeWebhook.
  rewrite Hsig, Htype, String.eqb_refl, Hrun. cbn [fst snd].
  by repeat split.
Qed.

(** X7 on the sample store. *)
Lemma webhook_paid_order_witness :
  (handleStripeWebhook Samples.stripe_stub prisma "whsec"
     (Samples.webhook "pi_1" "good") (Samples.db_of paymentInitiated)).1
  = Respond 200 (ReceivedJson true).
Proof.
  apply (webhook_paid_order Samples.stripe_stub "whsec"
           (Samples.webhook "pi_1" "good") (Samples.db_of paymentInitiated)
           {| type := "payment_intent.succeeded"; data_object_id := "pi_1" |}
           (Samples.order_P1_P2 paymentInitiated) eq_refl eq_refl eq_refl).
  intros _. exists {| cart := Some Samples.cart_U |}, Samples.cart_U.
  split; reflexivity.
Defined.




(** X9. [createPaymentIntent] stores the order or nothing: it either ends
    in [next(err)] with the database as it was (Stripe refused, the id is
    already stored, the user is unknown, an item row is refused), or it
    answers 201 and the
    database has the one new order, under an id that was free; an order
    already stored is never overwritten. *)
Theorem createPaymentIntent_all_or_nothing stripe payload db :
  (∃ err, createPaymentIntent stripe prisma payload db = (Next err, db))
  ∨ (∃ intent,
       paymentIntents_create stripe payload = inr intent
       ∧ orders db !! id intent = None
       ∧ createPaymentIntent stripe prisma payload db
         = (Respond 201 (ClientSecretJson (client_secret intent)),
            with_new_order payload intent db)).
Proof.
  unfold createPaymentIntent, with_new_order.
  destruct (paymentIntents_create stripe payload) as [err|intent] eqn:Hstripe;
    [left; by exists err|].
  change (order_create prisma) with prisma_order_create.
  unfold prisma_order_create.
  cbn [d_stripePaymentIntentId d_user d_items d_orderStatus].
  destruct (orders db !! id intent) as [existing|] eqn:Hfresh;
    [left; by eexists|].
  repeat match goal with
         | |- context [if ?b then inl _ else _] =>
             destruct b; [left; by eexists|]
         end.
  right. by exists intent.
Qed.



End PaymentRequests.

(** ** The access middleware *)

Section AccessMiddleware.
Import Auth.

Implicit Types (jwt : Jwt) (env : Env) (req : Request) (user : User).

(** X11. [authenticateAccessToken] calls [next()] exactly when the request
    carries a non-empty [accessToken] cookie that [jwt.verify] accepts under
    [REFRESH_TOKEN_SECRET]; in every other case it answers 401 with
    [{error: 'User does not have access'}]. [ACCESS_TOKEN_SECRET] is not
    consulted. *)
Theorem authenticateAccessToken_passes_iff jwt env req :
  (authenticateAccessToken jwt env req = Next
   ↔ ∃ token, cookies req !! "accessToken" = Some token ∧ token ≠ ""
              ∧ is_Some (verify jwt token (REFRESH_TOKEN_SECRET env)))
  ∧ (authenticateAccessToken jwt env req = Next
     ∨ authenticateAccessToken jwt env req
       = Json 401 "User does not have access").
Proof.
  unfold authenticateAccessToken, verifyToken.
  destruct (cookies req !! "accessToken") as [token|].
  2:{ split; [|by right]. split; [done|]. by intros (t & Ht & _). }
  destruct (String.eqb_spec token "") as [->|Hne].
  { split; [|by right]. split; [done|]. by intros (t & [= <-] & Ht & _). }
  destruct (verify jwt token (REFRESH_TOKEN_SECRET env)) as [d|] eqn:Hv.
  - split; [|by left]. split; [|done]. intros _. exists token.
    rewrite Hv. by repeat split.
  - split; [|by right]. split; [done|].
    intros (t & [= <-] & _ & Hsome). rewrite Hv in Hsome.
    by destruct Hsome.
Qed.

(** X12. With a token library in which a token verifies under the secret
    it was signed with and under no other, and with two different secrets
    in the environment, the middleware refuses every token that
    [generateAccessToken] mints and lets every token of
    [generateRefreshToken] pass: the check runs against
    [REFRESH_TOKEN_SECRET]. *)
Theorem access_check_uses_refresh_secret jwt env user cs :
  (∀ payload secret secret' expiresIn,
     is_Some (verify jwt (sign jwt payload secret expiresIn) secret')
     ↔ secret = secret') →
  (∀ payload secret expiresIn, sign jwt payload secret expiresIn ≠ "") →
  ACCESS_TOKEN_SECRET env ≠ REFRESH_TOKEN_SECRET env →
  authenticateAccessToken jwt env
    {| cookies := <["accessToken" := generateAccessToken jwt env user]> cs |}
  = Json 401 "User does not have access"
  ∧ authenticateAccessToken jwt env
      {| cookies :=
           <["accessToken" := generateRefreshToken jwt env user]> cs |}
    = Next.
Proof.
  intros Hjwt Hnonempty Hsecrets.
  unfold authenticateAccessToken, verifyToken. cbn [cookies].
  rewrite !lookup_insert_eq.
  unfold generateAccessToken, generateRefreshToken. split.
  - destruct (String.eqb _ ""); [done|].
    destruct (verify jwt _ (REFRESH_TOKEN_SECRET env)) as [d|] eqn:Hv;
      [|done].
    exfalso. apply Hsecrets. eapply Hjwt. by rewrite Hv.
  - destruct (String.eqb_spec
                (sign jwt
                   {| payload_id := id user; payload_email := email user;
                      payload_firstName := firstName user;
                      payload_lastName := lastName user |}
                   (REFRESH_TOKEN_SECRET env) "14d") "") as [Hempty|_].
    + by apply Hnonempty in Hempty.
    + destruct (verify jwt _ (REFRESH_TOKEN_SECRET env)) as [d|] eqn:Hv;
        [done|].
      exfalso.
      assert (Hsome : is_Some (verify jwt
                 (sign jwt
                    {| payload_id := id user; payload_email := email user;
                       payload_firstName := firstName user;
                       payload_lastName := lastName user |}
                    (REFRESH_TOKEN_SECRET env) "14d")
                 (REFRESH_TOKEN_SECRET env))) by by apply Hjwt.
      rewrite Hv in Hsome. by destruct Hsome.
Qed.

Lemma tag_inj (secret secret' : string) :
  "jwt." +:+ secret = "jwt." +:+ secret' → secret = secret'.
Proof. intros H. by simplify_eq/=. Qed.

(** X12 with the tagging token library and the secrets ["access"] and
    ["refresh"]. *)
Lemma access_check_uses_refresh_secret_witness :
  ACCESS_TOKEN_SECRET Samples.env_stub
    ≠ REFRESH_TOKEN_SECRET Samples.env_stub
  ∧ authenticateAccessToken Samples.jwt_stub Samples.env_stub
      {| cookies := {[ "accessToken" := "jwt.access" ]} |}
    = Json 401 "User does not have access"
  ∧ authenticateAccessToken Samples.jwt_stub Samples.env_stub
      {| cookies := {[ "accessToken" := "jwt.refresh" ]} |}
    = Next.
Proof.
  assert (Hsecrets : ACCESS_TOKEN_SECRET Samples.env_stub
                     ≠ REFRESH_TOKEN_SECRET Samples.env_stub)
    by discriminate.
  split; [exact Hsecrets|].
  apply (access_check_uses_refresh_secret Samples.jwt_stub Samples.env_stub
           Samples.user_U ∅); [| |exact Hsecrets].
  - intros payload secret secret' expiresIn. cbn.
    destruct (String.eqb_spec ("jwt." +:+ secret) ("jwt." +:+ secret'))
      as [Heq|Hne].
    + split; [intros _; by apply tag_inj|by eexists].
    + split; [by intros [d Hd]|]. by intros ->.
  - intros payload secret expiresIn. cbn. discriminate.
Defined.

End AccessMiddleware.

(** ** The cart handlers of the user controller *)

Section CartHandlers.
Import Schema UserController.

Implicit Types (db : Db) (userId productId : string).

Lemma findUnique_with_cart_items db userId c cartItems userId' :
  prisma_cart_findUnique (with_cart_items db userId c cartItems) userId'
  = if decide (userId = userId')
    then Some {| cart_id := cart_id c; cart_items := cartItems |}
    else prisma_cart_findUnique db userId'.
Proof.
  unfold prisma_cart_findUnique, with_cart_items. cbn [users].
  destruct (decide (userId = userId')) as [->|Hne].
  - by rewrite lookup_insert_eq.
  - by rewrite lookup_insert_ne.
Qed.

(** Writing back the items a cart holds changes nothing. *)
Lemma with_cart_items_same db userId c :
  prisma_cart_findUnique db userId = Some c →
  with_cart_items db userId c (cart_items c) = db.
Proof.
  unfold prisma_cart_findUnique, with_cart_items. intros Hc.
  destruct db as [os us ps]. cbn [users orders product_ids] in *. f_equal.
  destruct (us !! userId) as [[uc]|] eqn:Hu; [|done].
  cbn in Hc. subst uc. apply insert_id. rewrite Hu.
  by destruct c.
Qed.

Lemma with_cart_items_twice db userId c c' items1 items2 :
  cart_id c' = cart_id c →
  with_cart_items (with_cart_items db userId c items1) userId c' items2
  = with_cart_items db userId c items2.
Proof.
  intros Hid. unfold with_cart_items. cbn [users orders product_ids].
  by rewrite insert_insert_eq, Hid.
Qed.

Lemma removeItemFromCart_held db userId productId c q :
  prisma_cart_findUnique db userId = Some c →
  cart_items c !! productId = Some q →
  removeItemFromCart db userId productId
  = (Respond 200 (CartJson (Some (delete productId (cart_items c)))),
     with_cart_items db userId c (delete productId (cart_items c))).
Proof.
  intros Hc Hq. unfold removeItemFromCart, prisma_cart_update_items_delete.
  by rewrite Hc, Hq.
Qed.

Lemma removeItemFromCart_not_held db userId productId c :
  prisma_cart_findUnique db userId = Some c →
  cart_items c !! productId = None →
  removeItemFromCart db userId productId = (Next ItemNotFound, db).
Proof.
  intros Hc Hq. unfold removeItemFromCart, prisma_cart_update_items_delete.
  by rewrite Hc, Hq.
Qed.

(** X13. [removeItemFromCart] removes the named product from the user's
    cart and nothing else: afterwards the cart does not hold the product,
    every other product of that cart and every cart of another user is as
    before, and the orders are untouched. It answers 200 exactly when the
    cart held the product; otherwise (no cart: 404; product not in the
    cart: [next(err)]) the database is unchanged. *)
Theorem removeItemFromCart_removes_only_that db userId productId :
  let result := removeItemFromCart db userId productId in
  orders result.2 = orders db
  ∧ quantity_in_cart result.2 userId productId = None
  ∧ (∀ userId' productId', (userId', productId') ≠ (userId, productId) →
       quantity_in_cart result.2 userId' productId'
       = quantity_in_cart db userId' productId')
  ∧ (is_Some (quantity_in_cart db userId productId)
     ↔ ∃ b, result.1 = Respond 200 b)
  ∧ ((∀ b, result.1 ≠ Respond 200 b) → result.2 = db).
Proof.
  cbv zeta. unfold quantity_in_cart.
  destruct (prisma_cart_findUnique db userId) as [c|] eqn:Hc.
  2:{ unfold removeItemFromCart. rewrite Hc. cbn [fst snd mbind option_bind].
      rewrite Hc. repeat split; try done.
      by intros [b Hb]. }
  destruct (cart_items c !! productId) as [q|] eqn:Hq.
  - rewrite (removeItemFromCart_held db userId productId c q Hc Hq).
    cbn [fst snd with_cart_items orders].
    split; [done|]. split.
    { rewrite findUnique_with_cart_items, decide_True by done.
      cbn. apply lookup_delete_eq. }
    split.
    { intros userId' productId' Hother.
      rewrite findUnique_with_cart_items.
      destruct (decide (userId = userId')) as [<-|Hne]; [|done].
      rewrite Hc. cbn. apply lookup_delete_ne. congruence. }
    split.
    { cbn. rewrite Hq. split; [by eexists|by eexists]. }
    intros Hno. by exfalso; eapply Hno.
  - rewrite (removeItemFromCart_not_held db userId productId c Hc Hq).
    cbn [fst snd]. rewrite Hc. cbn. rewrite Hq.
    repeat split; try done.
    by intros [b Hb].
Qed.

(** X14. Removing the same product a second time is an error: after a
    removal that answered 200, [removeItemFromCart] for the same user and
    product ends in [next(err)] and changes nothing (a delete of one row,
    unlike the [deleteMany] of [clearCart]). *)
Theorem removeItemFromCart_twice_fails db userId productId b db' :
  removeItemFromCart db userId productId = (Respond 200 b, db') →
  removeItemFromCart db' userId productId = (Next ItemNotFound, db').
Proof.
  intros Hfirst.
  destruct (prisma_cart_findUnique db userId) as [c|] eqn:Hc.
  2:{ unfold removeItemFromCart in Hfirst. by rewrite Hc in Hfirst. }
  destruct (cart_items c !! productId) as [q|] eqn:Hq.
  2:{ by rewrite (removeItemFromCart_not_held _ _ _ c Hc Hq) in Hfirst. }
  rewrite (removeItemFromCart_held _ _ _ c q Hc Hq) in Hfirst.
  injection Hfirst as _ <-.
  apply (removeItemFromCart_not_held _ _ _
           {| cart_id := cart_id c;
              cart_items := delete productId (cart_items c) |}).
  - by rewrite findUnique_with_cart_items, decide_True.
  - apply lookup_delete_eq.
Qed.

(** X14 on the sample store: P1 is removed from the cart of U, twice. *)
Lemma removeItemFromCart_twice_fails_witness :
  let first := removeItemFromCart (Samples.db_of paymentInitiated) "U" "P1" in
  first.1 = Respond 200 (CartJson (Some {[ "P2" := 1; "P3" := 2 ]}))
  ∧ removeItemFromCart first.2 "U" "P1" = (Next ItemNotFound, first.2).
Proof.
  cbv zeta.
  assert (Hfirst :
    (removeItemFromCart (Samples.db_of paymentInitiated) "U" "P1").1
    = Respond 200 (CartJson (Some {[ "P2" := 1; "P3" := 2 ]})))
    by (vm_compute; reflexivity).
  split; [exact Hfirst|].
  apply (removeItemFromCart_twice_fails (Samples.db_of paymentInitiated)
           "U" "P1" (CartJson (Some {[ "P2" := 1; "P3" := 2 ]}))).
  rewrite <- Hfirst. by destruct (removeItemFromCart _ _ _).
Defined.

Lemma addItemToCart_success db userId productId q c :
  prisma_cart_findUnique db userId = Some c →
  productId ∈ product_ids db →
  is_int32 q = true →
  cart_items c !! productId = None →
  addItemToCart db userId (CartUtil.mkPayload productId q)
  = (Respond 200 (CartJson (Some (<[productId := q]> (cart_items c)))),
     with_cart_items db userId c (<[productId := q]> (cart_items c))).
Proof.
  intros Hc Hp Hq Hfree.
  unfold addItemToCart, prisma_cart_update_items_create.
  cbn [CartUtil.productId CartUtil.productQuantity].
  by rewrite Hc, bool_decide_eq_true_2, Hq, Hfree.
Qed.

(** What a 200 of [addItemToCart] tells about the request. *)
Lemma addItemToCart_200 db userId body b db' :
  addItemToCart db userId body = (Respond 200 b, db') →
  ∃ c, prisma_cart_findUnique db userId = Some c
     ∧ cart_items c !! CartUtil.productId body = None
     ∧ db' = with_cart_items db userId c
               (<[CartUtil.productId body := CartUtil.productQuantity body]>
                  (cart_items c)).
Proof.
  unfold addItemToCart, prisma_cart_update_items_create.
  destruct (prisma_cart_findUnique db userId) as [c|]; [|done].
  destruct (negb (bool_decide _)); [done|].
  destruct (negb (is_int32 _)); [done|].
  destruct (cart_items c !! CartUtil.productId body) eqn:Hfree; [done|].
  intros [= _ <-]. by exists c.
Qed.

(** X15. Adding an item and removing it again restores the database:
    after an [addItemToCart] that answered 200, [removeItemFromCart] for
    the same user and product answers 200 with the items the cart had
    before, and the database is the one before the addition. *)
Theorem addItemToCart_then_remove db userId body b db' :
  addItemToCart db userId body = (Respond 200 b, db') →
  ∃ c, prisma_cart_findUnique db userId = Some c
     ∧ removeItemFromCart db' userId (CartUtil.productId body)
       = (Respond 200 (CartJson (Some (cart_items c))), db).
Proof.
  intros Hadd.
  destruct (addItemToCart_200 _ _ _ _ _ Hadd) as (c & Hc & Hfree & ->).
  exists c. split; [done|].
  rewrite (removeItemFromCart_held _ userId (CartUtil.productId body)
             {| cart_id := cart_id c;
                cart_items := <[CartUtil.productId body :=
                                  CartUtil.productQuantity body]>
                                (cart_items c) |}
             (CartUtil.productQuantity body)).
  - cbn [cart_items cart_id]. rewrite delete_insert_id by done.
    rewrite with_cart_items_twice by done.
    by rewrite with_cart_items_same.
  - by rewrite findUnique_with_cart_items, decide_True.
  - apply lookup_insert_eq.
Qed.

(** X15 on the sample store: P4 is added to the cart of U and removed. *)
Lemma addItemToCart_then_remove_witness :
  let added := addItemToCart (Samples.db_of paymentInitiated)
                 "U" (CartUtil.mkPayload "P4" 3) in
  added.1 = Respond 200
              (CartJson (Some {[ "P1" := 5; "P2" := 1; "P3" := 2;
                                 "P4" := 3 ]}))
  ∧ removeItemFromCart added.2 "U" "P4"
    = (Respond 200 (CartJson (Some {[ "P1" := 5; "P2" := 1; "P3" := 2 ]})),
       Samples.db_of paymentInitiated).
Proof.
  cbv zeta.
  assert (Hadded :
    (addItemToCart (Samples.db_of paymentInitiated)
       "U" (CartUtil.mkPayload "P4" 3)).1
    = Respond 200
        (CartJson (Some {[ "P1" := 5; "P2" := 1; "P3" := 2; "P4" := 3 ]})))
    by (vm_compute; reflexivity).
  split; [exact Hadded|].
  destruct (addItemToCart_then_remove
              (Samples.db_of paymentInitiated) "U"
              (CartUtil.mkPayload "P4" 3)
              (CartJson (Some {[ "P1" := 5; "P2" := 1; "P3" := 2;
                                 "P4" := 3 ]}))
              (addItemToCart (Samples.db_of paymentInitiated)
                 "U" (CartUtil.mkPayload "P4" 3)).2)
    as (c & Hc & Hremove).
  - rewrite <- Hadded. by destruct (addItemToCart _ _ _).
  - assert (Hu : prisma_cart_findUnique (Samples.db_of paymentInitiated) "U"
                 = Some Samples.cart_U) by reflexivity.
    rewrite Hu in Hc. injection Hc as <-. exact Hremove.
Defined.

(** X16. When the user has a cart that does not hold the product, the
    product exists and the quantity fits the column, [addItemToCart]
    answers 200 with the cart that has the item; [getCart] then shows the
    same cart, with the quantity given; the other carts and the orders are
    as before; and adding the same item again is rejected and changes
    nothing. *)
Theorem addItemToCart_stores_quantity db userId productId q c :
  prisma_cart_findUnique db userId = Some c →
  productId ∈ product_ids db →
  is_int32 q = true →
  cart_items c !! productId = None →
  let result :=
    addItemToCart db userId (CartUtil.mkPayload productId q) in
  result.1 = Respond 200 (CartJson (Some (<[productId := q]> (cart_items c))))
  ∧ getCart result.2 userId = result.1
  ∧ quantity_in_cart result.2 userId productId = Some q
  ∧ (∀ userId' productId', (userId', productId') ≠ (userId, productId) →
       quantity_in_cart result.2 userId' productId'
       = quantity_in_cart db userId' productId')
  ∧ orders result.2 = orders db
  ∧ addItemToCart result.2 userId (CartUtil.mkPayload productId q)
    = (Next ItemExists, result.2).
Proof.
  intros Hc Hp Hq Hfree. cbv zeta.
  rewrite (addItemToCart_success db userId productId q c)
    by done.
  cbn [fst snd]. unfold getCart, quantity_in_cart.
  split; [done|]. split.
  { by rewrite findUnique_with_cart_items, decide_True. }
  split.
  { rewrite findUnique_with_cart_items, decide_True by done.
    cbn. apply lookup_insert_eq. }
  split.
  { intros userId' productId' Hother. rewrite findUnique_with_cart_items.
    destruct (decide (userId = userId')) as [<-|Hne]; [|done].
    rewrite Hc. cbn. apply lookup_insert_ne. congruence. }
  split; [done|].
  unfold addItemToCart, prisma_cart_update_items_create.
  cbn [CartUtil.productId CartUtil.productQuantity].
  rewrite findUnique_with_cart_items, decide_True by done.
  rewrite bool_decide_eq_true_2, Hq by done. cbn [negb cart_items].
  by rewrite lookup_insert_eq.
Qed.

(** X16 on the sample store. *)
Lemma addItemToCart_stores_quantity_witness :
  prisma_cart_findUnique (Samples.db_of paymentInitiated) "U"
    = Some Samples.cart_U
  ∧ quantity_in_cart
      (addItemToCart (Samples.db_of paymentInitiated) "U"
         (CartUtil.mkPayload "P4" 3)).2 "U" "P4" = Some 3.
Proof.
  split; [reflexivity|].
  apply (addItemToCart_stores_quantity
           (Samples.db_of paymentInitiated) "U" "P4" 3 Samples.cart_U);
    [reflexivity|set_solver|reflexivity|reflexivity].
Defined.

(** X17. [clearCart] always answers 200, also for a user without a cart.
    Afterwards the user's cart holds no product, and [getCart] shows an
    empty cart (or null when there is no cart, as before); the carts of the
    other users and the orders are untouched; and clearing again changes
    nothing. *)
Theorem clearCart_empties_only_that_cart db userId :
  let result := clearCart db userId in
  result.1 = Respond 200 (MessageJson "Cart cleared successfully")
  ∧ (∀ productId, quantity_in_cart result.2 userId productId = None)
  ∧ getCart result.2 userId
    = Respond 200 (CartJson ((λ _, ∅) <$> prisma_cart_findUnique db userId))
  ∧ (∀ userId' productId, userId' ≠ userId →
       quantity_in_cart result.2 userId' productId
       = quantity_in_cart db userId' productId)
  ∧ orders result.2 = orders db
  ∧ clearCart result.2 userId = result.
Proof.
  cbv zeta. unfold clearCart, prisma_cartItem_deleteMany. cbn [fst snd].
  unfold getCart, quantity_in_cart.
  destruct (prisma_cart_findUnique db userId) as [c|] eqn:Hc.
  - rewrite !findUnique_with_cart_items, !decide_True by done.
    cbn [fmap option_fmap option_map cart_items mbind option_bind].
    split; [done|]. split; [intros p; apply lookup_empty|].
    split; [done|]. split.
    { intros userId' p Hne. rewrite findUnique_with_cart_items.
      by rewrite decide_False. }
    split; [done|]. by rewrite with_cart_items_twice.
  - rewrite Hc. by repeat split.
Qed.

End CartHandlers.

(** ** The answers of the webhook handler *)

Section WebhookAnswers.
Import Schema PaymentController.

(** X18. Whatever the Stripe service, the client, the request and the
    database, [handleStripeWebhook] ends in one of three ways: the 400 text
    answer for a signature that does not verify, the 200 acknowledgment
    [{received: true}], or [next(err)]. It never sends another status or
    body. *)
Theorem webhook_outcome_kinds
    (stripe : StripeService) (client : PrismaClient) (secret : string)
    (req : Request) (db : Db) :
  let out := (handleStripeWebhook stripe client secret req db).1 in
  (∃ err, out = Respond 400 (Text ("Webhook Error: " +:+ err))
          ∧ constructEvent stripe (body req)
              (default "" (stripe_signature req)) secret = inl err)
  ∨ out = Respond 200 (ReceivedJson true)
  ∨ (∃ err, out = Next err).
Proof.
  cbv zeta. unfold handleStripeWebhook.
  destruct (constructEvent stripe _ _ _) as [err|event];
    [left; by exists err|].
  right.
  destruct (String.eqb (type event) "payment_intent.succeeded");
    [|by left].
  pose proof (onPaymentSucceeded_no_early_return
                client (data_object_id event) db) as Hno.
  destruct (onPaymentSucceeded client (data_object_id event) db)
    as [[err|[response|]] db']; cbn in *.
  - right. by exists err.
  - by exfalso; eapply Hno.
  - by left.
Qed.

End WebhookAnswers.

